(** * Decision and automation engine of CreditBeast

  Shallow embedding of the scoring, targeting, scheduling, retry, dunning
  and churn logic of [apps/api/services/lead_scoring.py],
  [apps/api/services/automation.py] and
  [apps/api/services/churn_prediction.py].

  Python floats are modelled as exact numbers: rationals [Q] where the code
  only adds, multiplies, divides and compares, reals [R] where it calls
  [math.exp].  Dicts read with [.get(key, default)] are records with
  [option] fields or association lists with the default written out. *)

From Stdlib Require Import String Ascii List Bool ZArith QArith Qround Qminmax Lqa Lia.
From Stdlib Require Import Sorted Reals Qreals Lra.
Import ListNotations.

Open Scope string_scope.

(** ** Python string helpers (ASCII)

  Rocq strings are byte strings: these are Python's [str] methods on ASCII
  text.  On other text Python's case mappings differ (['\u1e9e'.lower()] is
  ['\u00df'], whose [.title()] is ['Ss']), and nothing below is claimed there. *)
Module PyStr.

(** [str.lower] on ASCII letters. *)
Definition lower_ascii (c : ascii) : ascii :=
  let n := nat_of_ascii c in
  if (65 <=? n)%nat && (n <=? 90)%nat then ascii_of_nat (n + 32) else c.

Definition upper_ascii (c : ascii) : ascii :=
  let n := nat_of_ascii c in
  if (97 <=? n)%nat && (n <=? 122)%nat then ascii_of_nat (n - 32) else c.

Fixpoint map_str (f : ascii -> ascii) (s : string) : string :=
  match s with
  | EmptyString => EmptyString
  | String c r => String (f c) (map_str f r)
  end.

Definition lower (s : string) : string := map_str lower_ascii s.
Definition upper (s : string) : string := map_str upper_ascii s.

(** [str.isspace] on ASCII: space, \t \n \x0b \x0c \r and \x1c-\x1f. *)
Definition is_space (c : ascii) : bool :=
  let n := nat_of_ascii c in
  (n =? 32)%nat || ((9 <=? n)%nat && (n <=? 13)%nat)
  || ((28 <=? n)%nat && (n <=? 31)%nat).

Fixpoint lstrip (s : string) : string :=
  match s with
  | EmptyString => EmptyString
  | String c r => if is_space c then lstrip r else s
  end.

Fixpoint rev_str (s : string) (acc : string) : string :=
  match s with
  | EmptyString => acc
  | String c r => rev_str r (String c acc)
  end.

(** [str.strip()] *)
Definition strip (s : string) : string :=
  rev_str (lstrip (rev_str (lstrip s) EmptyString)) EmptyString.

(** Python truthiness of a string. *)
Definition truthy (s : string) : bool :=
  match s with EmptyString => false | _ => true end.

Fixpoint contains_char (c : ascii) (s : string) : bool :=
  match s with
  | EmptyString => false
  | String d r => if ascii_dec c d then true else contains_char c r
  end.

(** [s.split(sep)[1]] when [sep in s]: the text after the first [sep]
    up to the next one. *)
Fixpoint after_char (c : ascii) (s : string) : string :=
  match s with
  | EmptyString => EmptyString
  | String d r => if ascii_dec c d then r else after_char c r
  end.

Fixpoint upto_char (c : ascii) (s : string) : string :=
  match s with
  | EmptyString => EmptyString
  | String d r => if ascii_dec c d then EmptyString else String d (upto_char c r)
  end.

Definition split_second (c : ascii) (s : string) : string :=
  upto_char c (after_char c s).

Definition is_digit (c : ascii) : bool :=
  let n := nat_of_ascii c in (48 <=? n)%nat && (n <=? 57)%nat.

(** [re.sub(r'\D', '', s)] *)
Fixpoint digits_only (s : string) : string :=
  match s with
  | EmptyString => EmptyString
  | String c r => if is_digit c then String c (digits_only r) else digits_only r
  end.

(** [needle in hay] for strings. *)
Definition substr_in (needle hay : string) : bool :=
  match needle with
  | EmptyString => true
  | _ =>
    (fix go (h : string) : bool :=
       if String.prefix needle h then true
       else match h with EmptyString => false | String _ r => go r end) hay
  end.

(** [x in xs] for a list of strings. *)
Definition mem (x : string) (xs : list string) : bool :=
  existsb (String.eqb x) xs.

(** [d.get(k, '')] on an association list of strings. *)
Fixpoint get (k : string) (d : list (string * string)) : string :=
  match d with
  | [] => ""
  | (k', v) :: r => if String.eqb k k' then v else get k r
  end.

End PyStr.

(** ** Python numeric helpers on rationals *)
Module PyQ.
Open Scope Q_scope.

Definition lt (x y : Q) : bool := negb (Qle_bool y x).
Definition le (x y : Q) : bool := Qle_bool x y.

(** [max(a, b)] and [min(a, b)]: the first argument unless the second
    is strictly larger (smaller). *)
Definition max (a b : Q) : Q := if lt a b then b else a.
Definition min (a b : Q) : Q := if lt b a then b else a.

(** [round(x)] on an exact number: round half to even. *)
Definition round_half_even (q : Q) : Z :=
  let f := Qfloor q in
  let r := q - inject_Z f in
  if lt r (1 # 2) then f
  else if lt (1 # 2) r then (f + 1)%Z
  else if Z.even f then f else (f + 1)%Z.

(** [round(x, 2)] *)
Definition round2 (q : Q) : Q := Qmake (round_half_even (q * 100)) 100.

Definition of_nat (n : nat) : Q := inject_Z (Z.of_nat n).

(** [d.get(key, default)] on an optional field. *)
Definition get_or {A} (o : option A) (d : A) : A :=
  match o with Some x => x | None => d end.

End PyQ.

(** ** Lead scoring: [apps/api/services/lead_scoring.py] *)
Module LeadScoring.
Open Scope Q_scope.
Import PyStr.

(** A value of the lead dict: a string or [None].  The router
    [/leads/score] passes [lead_data.dict()] of a [LeadScoringRequest],
    so every optional field the request omits is present with [None]. *)
Inductive PyVal := PStr (s : string) | PNone.

(** A string method ([.lower()], [.upper()], [.strip()]) called on a
    value: [None] has none and the call raises [AttributeError], written
    [None] here. *)
Definition str_of (v : PyVal) : option string :=
  match v with PStr s => Some s | PNone => None end.

(** [d.get(k, '')] on a dict of values. *)
Fixpoint vget (k : string) (d : list (string * PyVal)) : PyVal :=
  match d with
  | [] => PStr ""
  | (k', v) :: r => if String.eqb k k' then v else vget k r
  end.

(** A lead record: its keys and its [custom_fields] dict (absent
    [custom_fields] is the empty dict). *)
Record Lead := mkLead {
  lead_fields : list (string * PyVal);
  custom_fields : list (string * PyVal)
}.

Definition lget (k : string) (l : Lead) : PyVal := vget k (lead_fields l).

(** One entry of [profile['criteria']]; missing [positive_values] and
    [negative_values] are [[]], a missing [threshold_score] is [0]. *)
Record Criteria := mkCriteria {
  criteria_type : string;
  weight : Q;
  positive_values : list string;
  negative_values : list string;
  threshold_score : Q
}.

Record Profile := mkProfile {
  criteria : list Criteria;
  auto_qualify_threshold : option Q;
  require_review_threshold : option Q;
  disqualify_threshold : option Q
}.

(** The (score, reasoning) pair of the [_score_*] methods. *)
Definition Eval := (Q * list string)%type.

(** [_score_email_domain]; [None] when [.lower()] raises. *)
Definition score_email_domain (l : Lead) (pos neg : list string) : option Eval :=
  match str_of (lget "email" l) with
  | None => None
  | Some e =>
    let email := lower e in
    if negb (truthy email) then Some (0, ["No email provided"])
    else
      let domain := if contains_char "@"%char email
                    then split_second "@"%char email else "" in
      if negb (truthy domain) then Some (0, ["Invalid email format"])
      else if mem domain pos then
        Some (1, ["Email domain " ++ domain ++ " is in positive list"])
      else if mem domain neg then
        Some (0, ["Email domain " ++ domain ++ " is in negative list"])
      else Some (1 # 2, ["Email domain " ++ domain ++ " is not in known lists"])
  end.

(** [_score_phone_format]: [if not phone] is false for [None] too, so this
    evaluator never raises. *)
Definition score_phone_format (l : Lead) : option Eval :=
  match lget "phone" l with
  | PNone => Some (0, ["No phone number provided"])
  | PStr phone =>
    if negb (truthy phone) then Some (0, ["No phone number provided"])
    else
      let d := digits_only phone in
      if (String.length d =? 10)%nat then Some (1, ["Valid 10-digit phone number"])
      else if (String.length d =? 11)%nat && String.prefix "1" d then
        Some (9 # 10, ["Valid 11-digit phone number with country code"])
      else if (10 <=? String.length d)%nat then
        Some (7 # 10, ["Phone number format needs verification"])
      else Some (0, ["Invalid phone number format"])
  end.

Definition address_fields : list string :=
  ["street_address"; "city"; "state"; "zip_code"].

(** The loop [for field in fields: if lead_data.get(field, '').strip(): n += 1];
    [None] when a field is [None]. *)
Fixpoint count_nonblank (l : Lead) (fields : list string) : option nat :=
  match fields with
  | [] => Some 0%nat
  | f :: rest =>
    match str_of (lget f l) with
    | None => None
    | Some s =>
      match count_nonblank l rest with
      | None => None
      | Some n => Some (if truthy (strip s) then S n else n)
      end
    end
  end.

(** [_score_address_validity] *)
Definition score_address_validity (l : Lead) : option Eval :=
  match count_nonblank l address_fields with
  | None => None
  | Some provided =>
    let completeness := PyQ.of_nat provided / PyQ.of_nat (List.length address_fields) in
    let reason :=
      if Qeq_bool completeness 1 then "Complete address provided"
      else if PyQ.le (3 # 4) completeness then "Nearly complete address provided"
      else if PyQ.le (1 # 2) completeness then "Partial address provided"
      else "Incomplete address provided" in
    Some (completeness, [reason])
  end.

(** [_score_utm_source] *)
Definition score_utm_source (l : Lead) (pos neg : list string) : option Eval :=
  match str_of (lget "utm_source" l) with
  | None => None
  | Some v =>
    let u := lower v in
    if negb (truthy u) then Some (0, ["No UTM source provided"])
    else if mem u pos then Some (1, ["UTM source " ++ u ++ " is high quality"])
    else if mem u neg then Some (0, ["UTM source " ++ u ++ " is low quality"])
    else Some (1 # 2, ["UTM source " ++ u ++ " is moderate quality"])
  end.

(** [_score_lead_source] *)
Definition score_lead_source (l : Lead) (pos neg : list string) : option Eval :=
  match str_of (lget "lead_source" l) with
  | None => None
  | Some v =>
    let s := lower v in
    if negb (truthy s) then Some (0, ["No lead source specified"])
    else if mem s pos then Some (1, ["Lead source " ++ s ++ " is high quality"])
    else if mem s neg then Some (0, ["Lead source " ++ s ++ " is low quality"])
    else Some (1 # 2, ["Lead source " ++ s ++ " is moderate quality"])
  end.

(** [_score_name_completeness] *)
Definition score_name_completeness (l : Lead) : option Eval :=
  match str_of (lget "first_name" l), str_of (lget "last_name" l) with
  | Some f, Some g =>
    let first := strip f in
    let last := strip g in
    if truthy first && truthy last then Some (1, ["Complete name provided"])
    else if truthy first || truthy last then Some (1 # 2, ["Partial name provided"])
    else Some (0, ["No name provided"])
  | _, _ => None
  end.

Definition urgency_indicators : list string :=
  ["urgent"; "asap"; "immediately"; "soon"].

(** [_score_credit_concern_level] *)
Definition score_credit_concern_level (l : Lead) : option Eval :=
  match str_of (vget "concern_level" (custom_fields l)) with
  | None => None
  | Some v =>
    let concern := lower v in
    if existsb (fun i => substr_in i concern) urgency_indicators then
      Some (4 # 5, ["High concern level indicated"])
    else if mem concern ["low"; "minor"; "curious"] then
      Some (3 # 10, ["Low concern level indicated"])
    else Some (1 # 2, [])
  end.

Definition high_demand_states : list string :=
  ["CA"; "TX"; "FL"; "NY"; "PA"; "IL"; "OH"; "GA"; "NC"; "MI"].

(** [_score_demographic_fit] *)
Definition score_demographic_fit (l : Lead) : option Eval :=
  match str_of (lget "state" l) with
  | None => None
  | Some v =>
    let st := upper v in
    if mem st high_demand_states then
      Some (4 # 5, ["State " ++ st ++ " has high credit repair demand"])
    else if truthy st then
      Some (3 # 5, ["State " ++ st ++ " has moderate credit repair demand"])
    else Some (1 # 2, ["No state information provided"])
  end.

(** The dispatch on [criteria_type] in [_score_criteria], before the
    weight is applied. *)
Definition evaluate (l : Lead) (c : Criteria) : option Eval :=
  let t := criteria_type c in
  if String.eqb t "email_domain" then
    score_email_domain l (positive_values c) (negative_values c)
  else if String.eqb t "phone_format" then score_phone_format l
  else if String.eqb t "address_validity" then score_address_validity l
  else if String.eqb t "utm_source" then
    score_utm_source l (positive_values c) (negative_values c)
  else if String.eqb t "lead_source" then
    score_lead_source l (positive_values c) (negative_values c)
  else if String.eqb t "name_completeness" then score_name_completeness l
  else if String.eqb t "credit_concern_level" then score_credit_concern_level l
  else if String.eqb t "demographic_fit" then score_demographic_fit l
  else Some (threshold_score c,
             ["Unknown criteria type: " ++ t ++ ", using threshold score"]).

(** The criteria types dispatched on by [_score_criteria]. *)
Definition known_criteria_types : list string :=
  ["email_domain"; "phone_format"; "address_validity"; "utm_source";
   "lead_source"; "name_completeness"; "credit_concern_level"; "demographic_fit"].

Record CriteriaScore := mkCriteriaScore {
  cs_score : Q;
  cs_raw_score : Q;
  cs_weight : Q;
  cs_reasoning : list string
}.

(** [_score_criteria] *)
Definition score_criteria (l : Lead) (c : Criteria) : option CriteriaScore :=
  match evaluate l c with
  | None => None
  | Some (s, r) => Some (mkCriteriaScore (s * weight c) s (weight c) r)
  end.

(** [criteria_scores[k] = v] on a dict kept in insertion order. *)
Fixpoint dict_set {V} (k : string) (v : V) (d : list (string * V))
  : list (string * V) :=
  match d with
  | [] => [(k, v)]
  | (k', v') :: r => if String.eqb k k' then (k, v) :: r else (k', v') :: dict_set k v r
  end.

Definition important_fields : list string :=
  ["email"; "phone"; "first_name"; "last_name"; "street_address"; "city";
   "state"; "zip_code"; "utm_source"; "lead_source"].

(** The important fields with a non-blank value ([None] when one of them
    is [None]). *)
Definition count_present_fields (l : Lead) : option nat :=
  count_nonblank l important_fields.

(** [_calculate_confidence] *)
Definition calculate_confidence (l : Lead) (scores : list (string * CriteriaScore))
  : option Q :=
  match count_present_fields l with
  | None => None
  | Some data_completeness =>
    let completeness_ratio := PyQ.of_nat data_completeness / 10 in
    let criteria_count :=
      List.length (filter (fun kv => PyQ.lt 0 (cs_raw_score (snd kv))) scores) in
    let criteria_ratio :=
      PyQ.of_nat criteria_count / PyQ.of_nat (Nat.max (List.length scores) 1) in
    let confidence := (completeness_ratio + criteria_ratio) / 2 in
    Some (PyQ.max (1 # 10) (PyQ.min 1 confidence))
  end.

Record ScoreResult := mkScoreResult {
  total_score : Q;
  raw_score : Q;
  max_possible_score : Q;
  criteria_scores : list (string * CriteriaScore);
  confidence : Q;
  reasoning : list string
}.

(** The loop of [_calculate_lead_score]: (criteria_scores, total_score,
    max_possible_score, reasoning), [None] when a criterion raises. *)
Fixpoint accumulate (l : Lead) (cs : list Criteria)
    (acc : list (string * CriteriaScore) * Q * Q * list string)
  : option (list (string * CriteriaScore) * Q * Q * list string) :=
  match cs with
  | [] => Some acc
  | c :: rest =>
    let '(scores, total, maxp, reasons) := acc in
    match score_criteria l c with
    | None => None
    | Some sr =>
      accumulate l rest
        (dict_set (criteria_type c) sr scores, total + cs_score sr,
         maxp + weight c, app reasons (cs_reasoning sr))
    end
  end.

(** [_calculate_lead_score]; [None] when it raises. *)
Definition calculate_lead_score (l : Lead) (p : Profile) : option ScoreResult :=
  match accumulate l (criteria p) ([], 0, 0, []) with
  | None => None
  | Some (scores, total, maxp, reasons) =>
    let normalized := if PyQ.lt 0 maxp then (total / maxp) * 10 else 0 in
    match calculate_confidence l scores with
    | None => None
    | Some conf =>
      Some (mkScoreResult (PyQ.round2 normalized) total maxp scores conf reasons)
    end
  end.

Inductive Status := auto_qualified | review_required | manual_review | auto_disqualified.

(** [_determine_qualification_status] *)
Definition determine_qualification_status (sr : ScoreResult) (p : Profile) : Status :=
  let score := total_score sr in
  let conf := confidence sr in
  let aq := PyQ.get_or (auto_qualify_threshold p) 7 in
  let rr := PyQ.get_or (require_review_threshold p) 5 in
  let dq := PyQ.get_or (disqualify_threshold p) 3 in
  let '(aq, rr) := if PyQ.lt conf (1 # 2) then (aq - 1, rr - (1 # 2)) else (aq, rr) in
  if PyQ.le aq score then auto_qualified
  else if PyQ.le rr score then review_required
  else if PyQ.le score dq then auto_disqualified
  else manual_review.

End LeadScoring.

(** ** Bureau targeting: [BureauTargetingService] in
  [apps/api/services/automation.py] *)
Module BureauTargeting.
Open Scope Q_scope.
Import PyStr.

(** [rule['criteria']]; absent lists are [[]]. *)
Record RuleCriteria := mkRuleCriteria {
  dispute_types : list string;
  account_keywords : list string;
  max_avg_disputes : option Q
}.

(** A row of [bureau_targeting_rules] (already filtered on [is_active]
    and ordered by [confidence_score] by the query). *)
Record Rule := mkRule {
  name : option string;
  rule_type : option string;
  rule_criteria : RuleCriteria;
  success_history : option Q;
  total_applications : option Q;
  recommended_bureaus : option (list string);
  confidence_score : option Q
}.

Record Dispute := mkDispute {
  dispute_type : option string;
  account_name : option string
}.

(** [client_history]: [None] or a dict of numbers; the empty dict is
    falsy in [if client_history:]. *)
Definition ClientHistory := list (string * Q).

Fixpoint qget (k : string) (d : ClientHistory) (dflt : Q) : Q :=
  match d with
  | [] => dflt
  | (k', v) :: r => if String.eqb k k' then v else qget k r dflt
  end.



(** [_calculate_rule_relevance] *)
Definition calculate_rule_relevance (rule : Rule) (d : Dispute)
    (client_history : option ClientHistory) : Q :=
  let rt := PyQ.get_or (rule_type rule) "" in
  let c := rule_criteria rule in
  let relevance :=
    if String.eqb rt "dispute_type_based" then
      match dispute_type d with
      | Some t => if mem t (dispute_types c) then 8 # 10 else 0
      | None => 0
      end
    else if String.eqb rt "account_based" then
      let an := lower (PyQ.get_or (account_name d) "") in
      if existsb (fun k => substr_in (lower k) an) (account_keywords c)
      then 6 # 10 else 0
    else if String.eqb rt "client_history_based" then
      match client_history with
      | Some ((_ :: _) as h) =>
        let avg := qget "avg_disputes_per_month" h 0 in
        if PyQ.lt avg (PyQ.get_or (max_avg_disputes c) 10) then 4 # 10 else 0
      | _ => 0
      end
    else 0 in
  let success_rate :=
    PyQ.get_or (success_history rule) 0
    / PyQ.max (PyQ.get_or (total_applications rule) 1) 1 in
  PyQ.min (relevance + success_rate * (3 # 10)) 1.




End BureauTargeting.

(** ** Round scheduling: [AutomatedSchedulingService] in
  [apps/api/services/automation.py].  Times are in days. *)
Module Scheduling.
Open Scope Q_scope.
Import PyStr.

Record Dispute := mkDispute {
  round_number : option Z;
  dispute_type : option string;
  client_responsiveness_score : option Q;
  client_id : option string
}.

(** A row of [scheduling_rules] for the next round. *)
Record SchedulingRule := mkSchedulingRule {
  rule_name : option string;
  min_wait_days : option Q;
  max_wait_days : option Q;
  follow_up_strategy : option string
}.

Record ScheduledRound := mkScheduledRound {
  next_round : Z;
  scheduled_date : Q;
  rule_applied : string;
  strategy : string;
  estimated_success_probability : Q
}.

(** [int(x)]: truncation toward zero. *)
Definition py_int (q : Q) : Z :=
  if PyQ.le 0 q then Qfloor q else (- Qfloor (- q))%Z.

(** [_estimate_success_probability] *)
Definition estimate_success_probability (d : Dispute) (round : Z) : Q :=
  let base_prob := PyQ.max (1 # 10) ((7 # 10) - inject_Z (round - 1) * (1 # 10)) in
  let t := PyQ.get_or (dispute_type d) "" in
  let modifier :=
    if String.eqb t "inquiry" then 11 # 10
    else if String.eqb t "late_payment" then 9 # 10
    else if String.eqb t "collection" then 7 # 10
    else if String.eqb t "charge_off" then 6 # 10
    else 1 in
  let responsiveness := PyQ.get_or (client_responsiveness_score d) (1 # 2) in
  let responsiveness_modifier := (8 # 10) + responsiveness * (4 # 10) in
  let estimated := base_prob * modifier * responsiveness_modifier in
  PyQ.max (5 # 100) (PyQ.min (95 # 100) estimated).

(** [_apply_default_scheduling], [now] being [datetime.utcnow()]. *)
Definition apply_default_scheduling (d : Dispute) (next : Z) (now : Q) : ScheduledRound :=
  let base_delay := (30 + (next - 1) * 15)%Z in
  mkScheduledRound next (now + inject_Z base_delay) "default_progressive" "standard"
                   (PyQ.max (1 # 10) ((8 # 10) - inject_Z next * (1 # 10))).

(** [_calculate_optimal_schedule]; [prefers_frequent] is
    [client_prefs.get('prefers_frequent_updates')] (false without a
    [client_id]); the result is the calendar day ([.date()]). *)
Definition calculate_optimal_schedule (d : Dispute) (rule : SchedulingRule)
    (prefers_frequent : bool) (now : Q) : Q :=
  let min_days := PyQ.get_or (min_wait_days rule) 30 in
  let max_days := PyQ.get_or (max_wait_days rule) 45 in
  let '(min_days, max_days) :=
    if mem (PyQ.get_or (dispute_type d) "") ["collection"; "charge_off"]
    then (PyQ.max 20 (min_days - 5), PyQ.max 30 (max_days - 5))
    else (min_days, max_days) in
  let min_days :=
    match client_id d with
    | Some _ => if prefers_frequent then PyQ.max 14 (min_days - 10) else min_days
    | None => min_days
    end in
  let base_delay := (min_days + max_days) / 2 in
  inject_Z (Qfloor (now + inject_Z (py_int base_delay))).

(** [schedule_next_round] once the dispute and the rule for the next
    round are fetched; the scheduled task row is left out. *)
Definition schedule_next_round (d : Dispute) (rule : option SchedulingRule)
    (prefers_frequent : bool) (now : Q) : ScheduledRound :=
  let next := (PyQ.get_or (round_number d) 1 + 1)%Z in
  match rule with
  | None => apply_default_scheduling d next now
  | Some r =>
    mkScheduledRound next (calculate_optimal_schedule d r prefers_frequent now)
                     (PyQ.get_or (rule_name r) "default")
                     (PyQ.get_or (follow_up_strategy r) "standard")
                     (estimate_success_probability d next)
  end.

End Scheduling.

(** ** Payment retry: [PaymentRetryService] in
  [apps/api/services/automation.py].  Times are in seconds. *)
Module PaymentRetry.
Open Scope Q_scope.

(** One entry of [config['amount_tiers']]; [max_amount = None] is
    [float('inf')]. *)
Record Tier := mkTier {
  min_amount : option Q;
  max_amount : option Q;
  tier_strategy : option string;
  delay_multiplier : option Q
}.

Record Config := mkConfig {
  strategy : option string;
  initial_delay_hours : option Q;
  amount_tiers : list (string * Tier)
}.

Record Payment := mkPayment {
  retry_count : option Z;
  amount_cents : option Q
}.

(** [_create_default_config] *)
Definition default_config : Config :=
  mkConfig (Some "exponential") (Some 24)
    [("low", mkTier None (Some 100) (Some "fixed") (Some (1 # 2)));
     ("medium", mkTier (Some 100) (Some 500) (Some "linear") (Some 1));
     ("high", mkTier (Some 500) None (Some "exponential") (Some (3 # 2)))].

Definition in_tier (amount : Q) (t : Tier) : bool :=
  PyQ.le (PyQ.get_or (min_amount t) 0) amount
  && match max_amount t with Some m => PyQ.lt amount m | None => true end.

Fixpoint lookup_tier (k : string) (ts : list (string * Tier)) : option Tier :=
  match ts with
  | [] => None
  | (k', t) :: r => if String.eqb k k' then Some t else lookup_tier k r
  end.

(** [_get_amount_tier] *)
Definition get_amount_tier (amount : Q) (ts : list (string * Tier)) : Tier :=
  match find (fun kt => in_tier amount (snd kt)) ts with
  | Some (_, t) => t
  | None =>
    match lookup_tier "medium" ts with
    | Some t => t
    | None => mkTier None None (Some "exponential") (Some 1)
    end
  end.

Definition base_rate (n : Z) : Q :=
  match n with
  | 0%Z => 7 # 10
  | 1%Z => 5 # 10
  | 2%Z => 3 # 10
  | 3%Z => 2 # 10
  | _ => 1 # 10
  end.

(** [_estimate_success_rate] *)
Definition estimate_success_rate (retry : Z) (strat : string) (amount : Q) : Q :=
  let b := base_rate (Z.min retry 3) in
  let strategy_modifier :=
    if String.eqb strat "exponential" then 9 # 10
    else if String.eqb strat "linear" then 1
    else if String.eqb strat "fixed" then 11 # 10
    else 1 in
  let amount_modifier := PyQ.max (1 # 2) ((12 # 10) - amount / 1000) in
  let estimated := b * strategy_modifier * amount_modifier in
  PyQ.max (5 # 100) (PyQ.min (95 # 100) estimated).

Record RetryStrategy := mkRetryStrategy {
  rs_retry_count : Z;
  next_retry_date : Q;
  rs_strategy : string;
  amount_to_charge : Q;
  success_rate : Q
}.

(** [_calculate_retry_strategy], [now] being [datetime.utcnow()]; the
    dunning step lookup is left out. *)
Definition calculate_retry_strategy (p : Payment) (config : Config) (now : Q)
  : RetryStrategy :=
  let rc := PyQ.get_or (retry_count p) 0%Z in
  let cents := PyQ.get_or (amount_cents p) 0 in
  let amount := cents / 100 in
  let tier := get_amount_tier amount (amount_tiers config) in
  let initial := PyQ.get_or (initial_delay_hours config) 24 in
  let strat := PyQ.get_or (tier_strategy tier)
                 (PyQ.get_or (strategy config) "exponential") in
  let multiplier := PyQ.get_or (delay_multiplier tier) 1 in
  let delay_hours :=
    if String.eqb strat "exponential" then initial * inject_Z (2 ^ rc) * multiplier
    else if String.eqb strat "linear" then initial * inject_Z (rc + 1) * multiplier
    else initial * multiplier in
  mkRetryStrategy (rc + 1) (now + delay_hours * 3600) strat cents
                  (estimate_success_rate rc strat amount).

End PaymentRetry.

(** ** Dunning sequence: [DunningEmailService] in
  [apps/api/services/automation.py].  Times are in seconds. *)
Module Dunning.
Open Scope Q_scope.

(** The active row of [dunning_sequence_states] for a failed payment. *)
Record State := mkState {
  current_step : Z;
  started_at : Q;
  last_step_at : option Q
}.

(** An active row of [dunning_sequences] with its [conditions]. *)
Record Step := mkStep {
  step_number : Z;
  email_template_key : string;
  delay_hours : option Q;
  min_amount : option Q
}.

Inductive Action :=
| sequence_complete
| email_sent (n : Z) (template : string)
| wait (next_check_date : Q).

(** [_start_new_sequence] *)
Definition start_new_sequence (now : Q) : State := mkState 0 now None.

(** [_get_next_sequence_step] *)
Definition get_next_sequence_step (n : Z) (steps : list Step) : option Step :=
  find (fun s => Z.eqb (step_number s) n) steps.

(** [_check_time_condition] *)
Definition check_time_condition (s : State) (required_hours : Q) (now : Q) : bool :=
  let start := match last_step_at s with Some t => t | None => started_at s end in
  PyQ.le (required_hours * 3600) (now - start).

(** [_should_trigger_step]; [amount] is the payment's [amount_cents]
    (0 when absent). *)
Definition should_trigger_step (step : Step) (s : State) (amount now : Q) : bool :=
  (match delay_hours step with
   | Some h => check_time_condition s h now
   | None => true
   end)
  && (match min_amount step with
      | Some m => negb (PyQ.lt amount (m * 100))
      | None => true
      end).

(** [_get_next_check_date] *)
Definition get_next_check_date (step : Step) (now : Q) : Q :=
  now + PyQ.get_or (delay_hours step) 24 * 3600.

(** [_update_sequence_state] *)
Definition update_sequence_state (s : State) (n : Z) (now : Q) : State :=
  mkState n (started_at s) (Some now).

(** [process_dunning_sequence]: the stored state (if any), the active
    steps of the organisation, the payment amount and the clock give the
    action and the stored state afterwards. *)
Definition process_dunning_sequence (st : option State) (steps : list Step)
    (amount now : Q) : Action * State :=
  let s := match st with Some s => s | None => start_new_sequence now end in
  match get_next_sequence_step (current_step s + 1) steps with
  | None => (sequence_complete, s)
  | Some step =>
    if should_trigger_step step s amount now then
      (email_sent (step_number step) (email_template_key step),
       update_sequence_state s (step_number step) now)
    else (wait (get_next_check_date step now), s)
  end.

(** Successive calls, each on the state stored by the previous one; each
    call sees its own step table, amount and clock. *)
Fixpoint run (st : option State) (calls : list (list Step * Q * Q))
  : list Action * option State :=
  match calls with
  | [] => ([], st)
  | (steps, amount, now) :: rest =>
    let '(a, s') := process_dunning_sequence st steps amount now in
    let '(acts, final) := run (Some s') rest in
    (a :: acts, final)
  end.

(** The step a call starts from: the stored one, or 0 for a new sequence. *)
Definition start_step (st : option State) : Z :=
  match st with Some s => current_step s | None => 0%Z end.

Definition sent_steps (acts : list Action) : list Z :=
  flat_map (fun a => match a with email_sent n _ => [n] | _ => [] end) acts.

End Dunning.

(** ** Churn prediction: [apps/api/services/churn_prediction.py] *)
Module Churn.
Open Scope R_scope.

(** A risk factor dict; [weight] defaults to 1.0, [impact_score] to 0.5. *)
Record RiskFactor := mkRiskFactor {
  weight : option R;
  impact_score : option R
}.

Definition factor_weight (f : RiskFactor) : R :=
  match weight f with Some w => w | None => 1 end.
Definition factor_impact (f : RiskFactor) : R :=
  match impact_score f with Some i => i | None => / 2 end.

Definition total_weight (fs : list RiskFactor) : R :=
  fold_left (fun acc f => acc + factor_weight f) fs 0.

Definition total_weighted_risk (fs : list RiskFactor) : R :=
  fold_left (fun acc f => acc + factor_impact f * factor_weight f) fs 0.

(** [normalized_risk = total_weighted_risk / total_weight] *)
Definition normalized_risk (fs : list RiskFactor) : R :=
  total_weighted_risk fs / total_weight fs.

Definition sigmoid (x : R) : R := 1 / (1 + exp (-6 * (x - / 2))).

(** [_calculate_churn_probability] *)
Definition calculate_churn_probability (fs : list RiskFactor) : R :=
  match fs with
  | [] => / 2
  | _ =>
    if Req_EM_T (total_weight fs) 0 then / 2
    else Rmax 0 (Rmin 1 (sigmoid (normalized_risk fs)))
  end.

Inductive RiskLevel := low | medium | high | critical.

(** [_determine_risk_level] *)
Definition determine_risk_level (p : R) : RiskLevel :=
  if Rle_dec (7 / 10) p then critical
  else if Rle_dec (5 / 10) p then high
  else if Rle_dec (3 / 10) p then medium
  else low.

Definition risk_rank (r : RiskLevel) : nat :=
  match r with low => 0 | medium => 1 | high => 2 | critical => 3 end.

End Churn.

(** ** Letter generation: [LetterGenerationService] in
  [apps/api/services/automation.py] *)
Module Letters.
Open Scope Q_scope.
Import PyStr.

(** A row of [letter_templates]; absent lists are [[]] and
    [round_optimized] is its truth value. *)
Record Template := mkTemplate {
  id : string;
  priority : option Q;
  dispute_types : list string;
  bureau_targets : list string;
  round_optimized : bool;
  success_rate : option Q;
  usage_count : option Q
}.

Record Dispute := mkDispute {
  dispute_type : option string;
  bureau : option string;
  round_number : option Z
}.

(** [dispute_data.get(key) in xs]: [None] is in no list of strings. *)
Definition opt_mem (x : option string) (xs : list string) : bool :=
  match x with Some s => mem s xs | None => false end.

(** [_calculate_template_score] *)
Definition calculate_template_score (t : Template) (d : Dispute) : Q :=
  let score := PyQ.get_or (priority t) 0 * (3 # 10) in
  let score := if opt_mem (dispute_type d) (dispute_types t) then score + 2 else score in
  let score := if opt_mem (bureau d) (bureau_targets t) then score + (3 # 2) else score in
  let score :=
    if round_optimized t && (PyQ.get_or (round_number d) 1 <=? 3)%Z
    then score + 1 else score in
  let score := score + PyQ.get_or (success_rate t) (1 # 2) * 2 in
  let usage := PyQ.get_or (usage_count t) 0 in
  if PyQ.lt 0 usage then score + PyQ.min (usage * (1 # 10)) 1 else score.

(** One insertion of the stable sort on descending score: [x] goes after
    every element whose score is at least its own. *)
Fixpoint insert_desc {A} (x : A * Q) (l : list (A * Q)) : list (A * Q) :=
  match l with
  | [] => [x]
  | y :: r => if PyQ.le (snd x) (snd y) then y :: insert_desc x r else x :: y :: r
  end.

(** [scored.sort(key=lambda x: x[1], reverse=True)]: stable, so equal
    scores keep the order of the list. *)
Definition sort_desc {A} (l : list (A * Q)) : list (A * Q) :=
  fold_left (fun acc x => insert_desc x acc) l [].

(** [_select_optimal_template] on the active templates, in the order of
    the query. *)
Definition select_optimal_template (templates : list Template) (d : Dispute) : string :=
  match templates with
  | [] => "default_dispute_template"
  | t0 :: _ =>
    match sort_desc (map (fun t => (t, calculate_template_score t d)) templates) with
    | (t, _) :: _ => id t
    | [] => id t0
    end
  end.

(** [_format_address]: [', '.join(part for part in parts if part)]. *)
Definition format_address (client : list (string * string)) : string :=
  String.concat ", "
    (filter truthy [get "street_address" client; get "city" client;
                    get "state" client; get "zip_code" client]).

Definition is_alpha (c : ascii) : bool :=
  let n := nat_of_ascii c in
  ((65 <=? n)%nat && (n <=? 90)%nat) || ((97 <=? n)%nat && (n <=? 122)%nat).

(** [str.title] on ASCII: a letter after a letter is lowered, any other
    letter is raised. *)
Fixpoint title_from (prev_cased : bool) (s : string) : string :=
  match s with
  | EmptyString => EmptyString
  | String c r =>
    if is_alpha c
    then String (if prev_cased then lower_ascii c else upper_ascii c) (title_from true r)
    else String c (title_from false r)
  end.

Definition title (s : string) : string := title_from false s.

Definition bureau_names : list (string * string) :=
  [("equifax", "Equifax Information Services LLC");
   ("experian", "Experian");
   ("transunion", "TransUnion LLC");
   ("all", "All Credit Reporting Agencies")].

(** [_get_bureau_full_name] *)
Definition get_bureau_full_name (bureau_code : string) : string :=
  match find (fun kv => String.eqb (fst kv) (lower bureau_code)) bureau_names with
  | Some (_, v) => v
  | None => title bureau_code
  end.

End Letters.

(** ** Lead recommendations and analytics: [apps/api/services/lead_scoring.py] *)
Module LeadReporting.
Open Scope Q_scope.
Import PyStr LeadScoring.

Definition status_recommendations (s : Status) : list string :=
  match s with
  | auto_qualified =>
    ["Automatically qualify and add to nurture sequence";
     "Assign to sales team for immediate follow-up"]
  | review_required =>
    ["Schedule manual review within 24 hours"; "Add to review queue for sales team"]
  | manual_review => ["Manual review required - gather additional information"]
  | auto_disqualified => ["Auto-disqualified - do not pursue"]
  end.

(** The loop over [criteria_scores.items()]. *)
Fixpoint weak_criteria_recommendations (scores : list (string * CriteriaScore))
  : list string :=
  match scores with
  | [] => []
  | (k, sd) :: r =>
    app (if PyQ.lt (cs_raw_score sd) (1 # 2) then
           if String.eqb k "email_domain"
           then ["Verify email address and request alternative contact"]
           else if String.eqb k "phone_format"
           then ["Request valid phone number for contact"]
           else if String.eqb k "address_validity"
           then ["Request complete address information"]
           else []
         else [])
        (weak_criteria_recommendations r)
  end.

(** [_generate_recommendations] *)
Definition generate_recommendations (sr : ScoreResult) (s : Status) : list string :=
  app (status_recommendations s) (weak_criteria_recommendations (criteria_scores sr)).




(** A row of [lead_scoring_results]. *)
Record ScoringRow := mkScoringRow {
  row_score : Q;
  row_status : string
}.

Record Bucket := mkBucket {
  bucket_label : string;
  bucket_count : nat;
  bucket_percentage : Q;
  bucket_range : string
}.

Record Analytics := mkAnalytics {
  total_leads : nat;
  average_score : Q;
  qualification_rates : list (string * (nat * Q));
  score_distribution : list Bucket
}.

Definition statuses : list string :=
  ["auto_qualified"; "review_required"; "manual_review"; "auto_disqualified"].

(** [score_ranges], with the text [f"{min_score}-{max_score}"] of each. *)
Definition score_ranges : list (Q * Q * string * string) :=
  [(0, 2, "Very Low", "0-2"); (2, 4, "Low", "2-4"); (4, 6, "Medium", "4-6");
   (6, 8, "High", "6-8"); (8, 10, "Very High", "8-10")].

Definition in_range (lo hi s : Q) : bool := PyQ.le lo s && PyQ.lt s hi.

Definition percentage (count total : nat) : Q :=
  if (0 <? total)%nat then PyQ.of_nat count / PyQ.of_nat total * 100 else 0.

(** [get_scoring_analytics] once the rows are fetched; the [date_range]
    echo is left out. *)
Definition get_scoring_analytics (rows : list ScoringRow) : Analytics :=
  match rows with
  | [] => mkAnalytics 0 0 [] []
  | _ =>
    let n := List.length rows in
    let scores_only := map row_score rows in
    let average := fold_left Qplus scores_only 0 / PyQ.of_nat n in
    let rates :=
      map (fun st =>
             let c := List.length (filter (fun r => String.eqb (row_status r) st) rows) in
             (st, (c, percentage c n))) statuses in
    let dist :=
      map (fun '(lo, hi, label, range) =>
             let c := List.length (filter (in_range lo hi) scores_only) in
             mkBucket label c (percentage c n) range) score_ranges in
    mkAnalytics n (PyQ.round2 average) rates dist
  end.

End LeadReporting.

(** ** Churn risk analysis: [apps/api/services/churn_prediction.py].
  Times are in days; [now] is [datetime.utcnow()]. *)
Module ChurnAnalysis.
Open Scope Q_scope.
Import PyStr.

(** A parsed [created_at]: [datetime.fromisoformat(s.replace('Z', '+00:00'))]
    is offset-aware when the text carries a [Z] or an offset, naive
    otherwise; [ts_days] is its instant in days. *)
Record Timestamp := mkTimestamp {
  ts_days : Q;
  ts_aware : bool
}.

(** The dict built by the [_analyze_*_risk] methods, without its
    [description] and [current_value] texts. *)
Record Factor := mkFactor {
  factor_name : string;
  weight : Q;
  risk_level : string;
  impact_score : Q
}.

(** A row of [email_logs]: [opened] is the truth value of [opened_at],
    [click_count] is 0 when absent, [subject] and [body_text] are [''] when
    absent. *)
Record Communication := mkCommunication {
  comm_status : option string;
  opened : bool;
  click_count : Q;
  comm_created_at : Timestamp;
  subject : string;
  body_text : string
}.

Record DisputeRow := mkDisputeRow {
  result : option string;
  dispute_created_at : Timestamp
}.

Record PaymentRow := mkPaymentRow {
  payment_status : option string;
  payment_created_at : Timestamp
}.

(** [_get_client_history] *)
Record History := mkHistory {
  disputes : list DisputeRow;
  payments : list PaymentRow;
  communications : list Communication;
  documents : list Timestamp
}.

Definition ratio (a b : nat) : Q := PyQ.of_nat a / PyQ.of_nat b.

Definition opt_eqb (o : option string) (s : string) : bool :=
  match o with Some x => String.eqb x s | None => false end.

(** [created_at > datetime.utcnow() - timedelta(days=d)]: [utcnow()] is
    naive, and comparing it with an offset-aware datetime raises
    [TypeError], written [None]. *)
Definition within (d now : Q) (t : Timestamp) : option bool :=
  if ts_aware t then None else Some (PyQ.lt (now - d) (ts_days t)).

(** A list comprehension whose condition may raise. *)
Fixpoint filter_opt {A} (f : A -> option bool) (l : list A) : option (list A) :=
  match l with
  | [] => Some []
  | x :: rest =>
    match f x with
    | None => None
    | Some b =>
      match filter_opt f rest with
      | None => None
      | Some r => Some (if b then x :: r else r)
      end
    end
  end.


(** [_analyze_engagement_risk]; [None] when it raises. *)
Definition analyze_engagement_risk (h : History) (now : Q) : option Factor :=
  let comms := communications h in
  match comms with
  | [] => Some (mkFactor "communication_engagement" 2 "medium" (1 # 2))
  | _ =>
    let sent := filter (fun c => match comm_status c with
                                 | Some s => mem s ["sent"; "delivered"]
                                 | None => false end) comms in
    let opened_emails := filter opened comms in
    let clicked_emails := filter (fun c => PyQ.lt 0 (click_count c)) comms in
    match sent with
    | [] => Some (mkFactor "communication_engagement" 2 "high" (4 # 5))
    | _ =>
      let open_rate := ratio (List.length opened_emails) (List.length sent) in
      let click_rate := ratio (List.length clicked_emails) (List.length sent) in
      match filter_opt (fun c => within 30 now (comm_created_at c)) comms with
      | None => None
      | Some recent =>
        let '(lvl, impact) :=
          match recent with
          | [] => ("high", 9 # 10)
          | _ =>
            if PyQ.lt open_rate (1 # 5) && PyQ.lt click_rate (1 # 20)
            then ("medium", 3 # 5) else ("low", 1 # 5)
          end in
        Some (mkFactor "communication_engagement" 2 lvl impact)
      end
    end
  end.

(** [_analyze_payment_risk]; [None] when it raises. *)
Definition analyze_payment_risk (h : History) (now : Q) : option Factor :=
  match payments h with
  | [] => Some (mkFactor "payment_behavior" (5 # 2) "medium" (1 # 2))
  | ps =>
    let failed := filter (fun p => opt_eqb (payment_status p) "failed") ps in
    let failure_rate := ratio (List.length failed) (List.length ps) in
    match filter_opt (fun p => within 60 now (payment_created_at p)) failed with
    | None => None
    | Some recent_failures =>
      let '(lvl, impact) :=
        match recent_failures with
        | _ :: _ => ("high", 9 # 10)
        | [] =>
          if PyQ.lt (3 # 10) failure_rate then ("high", 4 # 5)
          else if PyQ.lt (1 # 10) failure_rate then ("medium", 3 # 5)
          else ("low", 1 # 5)
        end in
      Some (mkFactor "payment_behavior" (5 # 2) lvl impact)
    end
  end.

(** [_analyze_dispute_risk]; the disputes come newest first. *)
Definition analyze_dispute_risk (h : History) : Factor :=
  match disputes h with
  | [] => mkFactor "dispute_success" (3 # 2) "low" (1 # 5)
  | ds =>
    let successful := filter (fun d => opt_eqb (result d) "success") ds in
    let success_rate := ratio (List.length successful) (List.length ds) in
    let recent_failures := filter (fun d => opt_eqb (result d) "failed") (firstn 5 ds) in
    let '(lvl, impact) :=
      if (3 <=? List.length recent_failures)%nat then ("high", 4 # 5)
      else if PyQ.lt success_rate (3 # 10) then ("high", 7 # 10)
      else if PyQ.lt success_rate (3 # 5) then ("medium", 1 # 2)
      else ("low", 1 # 5) in
    mkFactor "dispute_success" (3 # 2) lvl impact
  end.

(** [_analyze_utilization_risk]; [None] when it raises. *)
Definition analyze_utilization_risk (h : History) (now : Q) : option Factor :=
  match filter_opt (within 30 now)
          (app (map dispute_created_at (disputes h)) (documents h)) with
  | None => None
  | Some recent_activity =>
    let recent := List.length recent_activity in
    let '(lvl, impact) :=
      if (recent =? 0)%nat then ("high", 4 # 5)
      else if (recent =? 1)%nat then ("medium", 3 # 5)
      else if (recent <=? 3)%nat then ("low", 3 # 10)
      else ("low", 1 # 10) in
    Some (mkFactor "service_utilization" 1 lvl impact)
  end.

(** [_analyze_tenure_risk]; [created_at] is [None] when absent or empty,
    [.days] of the elapsed time is its floor.  The outer [None] is the
    [TypeError] of subtracting an offset-aware start from the naive
    [utcnow()], the inner one the method's [return None]. *)
Definition analyze_tenure_risk (created_at : option Timestamp) (now : Q)
  : option (option Factor) :=
  match created_at with
  | None => Some None
  | Some start =>
    if ts_aware start then None
    else
      let days := Qfloor (now - ts_days start) in
      let '(lvl, impact) :=
        if (days <? 30)%Z then ("medium", 3 # 5)
        else if (days <? 90)%Z then ("medium", 2 # 5)
        else if (365 <? days)%Z then ("low", 1 # 5)
        else ("low", 3 # 10) in
      Some (Some (mkFactor "client_tenure" 1 lvl impact))
  end.

Definition support_indicators : list string :=
  ["support"; "help"; "issue"; "problem"; "complaint"; "frustrated"].

(** [_analyze_support_risk]; [None] when it raises. *)
Definition analyze_support_risk (h : History) (now : Q) : option Factor :=
  let support_contacts :=
    filter (fun c =>
              let combined := lower (subject c) ++ " " ++ lower (body_text c) in
              existsb (fun i => substr_in i combined) support_indicators)
           (communications h) in
  match filter_opt (fun c => within 30 now (comm_created_at c)) support_contacts with
  | None => None
  | Some recent_support =>
    let recent := List.length recent_support in
    let '(lvl, impact) :=
      if (3 <=? recent)%nat then ("high", 4 # 5)
      else if (1 <=? recent)%nat then ("medium", 1 # 2)
      else ("low", 1 # 5) in
    Some (mkFactor "support_interactions" (3 # 2) lvl impact)
  end.

(** [_analyze_risk_factors]: every non-empty dict is kept; [None] when
    an analyzer raises. *)
Definition analyze_risk_factors (created_at : option Timestamp) (h : History) (now : Q)
  : option (list Factor) :=
  match analyze_engagement_risk h now, analyze_payment_risk h now,
        analyze_utilization_risk h now, analyze_tenure_risk created_at now,
        analyze_support_risk h now with
  | Some e, Some p, Some u, Some t, Some s =>
    Some (app [e; p; analyze_dispute_risk h; u]
              (app (match t with Some f => [f] | None => [] end) [s]))
  | _, _, _, _, _ => None
  end.

Definition nonempty {A} (l : list A) : nat := match l with [] => 0 | _ => 1 end.

(** [_calculate_confidence] *)
Definition calculate_confidence (h : History) (factors : list Factor) : Q :=
  let data_points :=
    (nonempty (disputes h) + nonempty (payments h)
     + nonempty (communications h) + nonempty (documents h))%nat in
  let data_completeness := PyQ.of_nat data_points / 4 in
  let factor_count := List.length factors in
  let factor_confidence :=
    if (factor_count =? 0)%nat then 1 # 10
    else if (factor_count <=? 2)%nat then 2 # 5
    else if (factor_count <=? 4)%nat then 7 # 10
    else 9 # 10 in
  let confidence := (data_completeness + factor_confidence) / 2 in
  PyQ.max (1 # 10) (PyQ.min 1 confidence).

Definition level_recommendations (risk_level : string) : list string :=
  if mem risk_level ["critical"; "high"] then
    ["Immediate outreach required - schedule personal call within 24 hours";
     "Offer special retention incentives or service upgrades";
     "Escalate to account management team"]
  else if String.eqb risk_level "medium" then
    ["Proactive check-in within 1 week";
     "Send targeted value-add content or resources";
     "Review service satisfaction and address concerns"]
  else [].

Definition factor_recommendations (f : Factor) : list string :=
  let name := factor_name f in
  let severe := mem (risk_level f) ["high"; "critical"] in
  if String.eqb name "communication_engagement" && severe then
    ["Implement multi-channel communication strategy";
     "Personalize email content based on client interests"]
  else if String.eqb name "payment_behavior" && severe then
    ["Offer flexible payment options or payment plans";
     "Provide financial education resources";
     "Consider service tier adjustment"]
  else if String.eqb name "dispute_success" && severe then
    ["Review dispute strategy and set realistic expectations";
     "Provide regular progress updates and success stories";
     "Consider additional services or consultations"]
  else if String.eqb name "service_utilization" && severe then
    ["Engage client with usage tips and best practices";
     "Highlight underutilized features that could add value";
     "Schedule onboarding or refresher training"]
  else if String.eqb name "support_interactions" && severe then
    ["Address all outstanding support issues immediately";
     "Assign dedicated support representative";
     "Implement proactive support check-ins"]
  else [].

Definition low_default : list string :=
  ["Continue current engagement strategy";
   "Consider upselling or cross-selling opportunities"].

Definition other_default : list string :=
  ["Monitor closely and gather feedback";
   "Review service delivery and client satisfaction"].

(** [_generate_recommendations]: the loop rebinds [risk_level] to each
    factor's level, and the final default reads the rebound name. *)
Definition generate_recommendations (risk_level : string) (factors : list Factor)
  : list string :=
  let '(recs, risk_level) :=
    fold_left (fun acc f => (app (fst acc) (factor_recommendations f), ChurnAnalysis.risk_level f))
              factors (level_recommendations risk_level, risk_level) in
  match recs with
  | [] => if String.eqb risk_level "low" then low_default else other_default
  | _ => recs
  end.

(** [round(x, 3)] *)
Definition round3 (q : Q) : Q := Qmake (PyQ.round_half_even (q * 1000)) 1000.

(** An entry of [predictions]; [risk_level] defaults to ['medium'],
    [churn_probability] to 0.5. *)
Record Prediction := mkPrediction {
  pred_risk_level : option string;
  pred_churn_probability : option Q
}.

Record Summary := mkSummary {
  high_risk_count : nat;
  medium_risk_count : nat;
  low_risk_count : nat;
  critical_risk_count : nat;
  average_churn_probability : Q;
  total_potential_revenue_at_risk : Q
}.

Definition pred_level (p : Prediction) : string :=
  PyQ.get_or (pred_risk_level p) "medium".

Definition count_level (ps : list Prediction) (l : string) : nat :=
  List.length (filter (fun p => String.eqb (pred_level p) l) ps).

(** [_calculate_summary_statistics]; the empty case has no
    [critical_risk_count] key, read here as 0. *)
Definition calculate_summary_statistics (ps : list Prediction) : Summary :=
  match ps with
  | [] => mkSummary 0 0 0 0 0 0
  | _ =>
    let probs := map (fun p => PyQ.get_or (pred_churn_probability p) (1 # 2)) ps in
    let avg := fold_left Qplus probs 0 / PyQ.of_nat (List.length probs) in
    let high_and_critical := (count_level ps "critical" + count_level ps "high")%nat in
    mkSummary (count_level ps "high") (count_level ps "medium") (count_level ps "low")
              (count_level ps "critical") (round3 avg)
              (PyQ.of_nat high_and_critical * 200)
  end.

Definition to_risk_factor (f : Factor) : Churn.RiskFactor :=
  Churn.mkRiskFactor (Some (Q2R (weight f))) (Some (Q2R (impact_score f))).

Definition risk_level_name (r : Churn.RiskLevel) : string :=
  match r with
  | Churn.low => "low"
  | Churn.medium => "medium"
  | Churn.high => "high"
  | Churn.critical => "critical"
  end.

(** The result of [_predict_client_churn]; [churn_probability] is kept
    before its rounding to three decimals. *)
Record ClientPrediction := mkClientPrediction {
  churn_probability : R;
  prediction_level : Churn.RiskLevel;
  factors : list Factor;
  recommended_actions : list string;
  confidence_score : Q
}.

(** The safe default of the [except] branch of [_predict_client_churn]. *)
Definition error_prediction : ClientPrediction :=
  mkClientPrediction (/ 2)%R Churn.medium []
    ["Manual review required due to prediction error"] (1 # 10).

(** [_predict_client_churn] once the client history is fetched; an
    exception of the analysis falls back to [error_prediction]. *)
Definition predict_client_churn (created_at : option Timestamp) (h : History) (now : Q)
    (include_factors include_recommendations : bool) : ClientPrediction :=
  match (if include_factors then analyze_risk_factors created_at h now else Some []) with
  | None => error_prediction
  | Some fs =>
    let p := Churn.calculate_churn_probability (map to_risk_factor fs) in
    let lvl := Churn.determine_risk_level p in
    let recs :=
      if include_recommendations then generate_recommendations (risk_level_name lvl) fs
      else [] in
    mkClientPrediction p lvl fs recs (round3 (calculate_confidence h fs))
  end.

End ChurnAnalysis.

(** * Proofs *)

Ltac qlra := Lqa.lra.

Module PyQFacts.
Open Scope Q_scope.

Lemma lt_spec x y : if PyQ.lt x y then x < y else y <= x.
Proof.
  unfold PyQ.lt. destruct (Qle_bool y x) eqn:E; simpl.
  - apply Qle_bool_iff in E. exact E.
  - apply Qnot_le_lt. intro H. apply Qle_bool_iff in H. congruence.
Qed.

Lemma le_spec x y : if PyQ.le x y then x <= y else y < x.
Proof.
  unfold PyQ.le. destruct (Qle_bool x y) eqn:E.
  - apply Qle_bool_iff in E. exact E.
  - apply Qnot_le_lt. intro H. apply Qle_bool_iff in H. congruence.
Qed.

Lemma max_ge_l a b : a <= PyQ.max a b.
Proof. unfold PyQ.max. pose proof (lt_spec a b). destruct (PyQ.lt a b); qlra. Qed.

Lemma max_le a b c : a <= c -> b <= c -> PyQ.max a b <= c.
Proof. unfold PyQ.max. destruct (PyQ.lt a b); auto. Qed.

Lemma min_le_l a b : PyQ.min a b <= a.
Proof. unfold PyQ.min. pose proof (lt_spec b a). destruct (PyQ.lt b a); qlra. Qed.

Lemma min_ge a b c : c <= a -> c <= b -> c <= PyQ.min a b.
Proof. unfold PyQ.min. destruct (PyQ.lt b a); auto. Qed.

(** [max(lo, min(hi, x))] lies in [[lo, hi]]. *)
Lemma clamp_bounds lo hi x : lo <= hi -> lo <= PyQ.max lo (PyQ.min hi x) <= hi.
Proof.
  intros H. split.
  - apply max_ge_l.
  - apply max_le; [exact H | apply min_le_l].
Qed.

Ltac pyq_cases :=
  repeat match goal with
         | |- context [PyQ.lt ?x ?y] =>
           let H := fresh "Hc" in
           pose proof (lt_spec x y) as H; destruct (PyQ.lt x y); cbv iota in H
         | |- context [PyQ.le ?x ?y] =>
           let H := fresh "Hc" in
           pose proof (le_spec x y) as H; destruct (PyQ.le x y); cbv iota in H
         | _ : context [PyQ.lt ?x ?y] |- _ =>
           let H := fresh "Hc" in
           pose proof (lt_spec x y) as H; destruct (PyQ.lt x y); cbv iota in *
         | _ : context [PyQ.le ?x ?y] |- _ =>
           let H := fresh "Hc" in
           pose proof (le_spec x y) as H; destruct (PyQ.le x y); cbv iota in *
         end.

Lemma round_half_even_bounds (a b : Z) q :
  inject_Z a <= q -> q <= inject_Z b ->
  (a <= PyQ.round_half_even q <= b)%Z.
Proof.
  intros Ha Hb. unfold PyQ.round_half_even.
  assert (Hfa : (a <= Qfloor q)%Z).
  { rewrite <- (Qfloor_Z a). apply Qfloor_resp_le. exact Ha. }
  assert (Hfb : (Qfloor q <= b)%Z).
  { rewrite <- (Qfloor_Z b). apply Qfloor_resp_le. exact Hb. }
  pose proof (Qfloor_le q) as Hf.
  assert (Hup : 0 < q - inject_Z (Qfloor q) -> (Qfloor q + 1 <= b)%Z).
  { intros Hpos.
    assert (Hlt : inject_Z (Qfloor q) < inject_Z b) by qlra.
    rewrite <- Zlt_Qlt in Hlt. lia. }
  pose proof (lt_spec (q - inject_Z (Qfloor q)) (1 # 2)) as H1.
  destruct (PyQ.lt (q - inject_Z (Qfloor q)) (1 # 2)); [lia |].
  pose proof (lt_spec (1 # 2) (q - inject_Z (Qfloor q))) as H2.
  destruct (PyQ.lt (1 # 2) (q - inject_Z (Qfloor q))).
  - assert (0 < q - inject_Z (Qfloor q)) by qlra. specialize (Hup H). lia.
  - assert (0 < q - inject_Z (Qfloor q)) by qlra. specialize (Hup H).
    destruct (Z.even (Qfloor q)); lia.
Qed.

(** [round(x, 2)] keeps a value of [[0, 10]] in [[0, 10]]. *)
Lemma round2_bounds q : 0 <= q <= 10 -> 0 <= PyQ.round2 q <= 10.
Proof.
  intros [H0 H10]. unfold PyQ.round2.
  assert (Hr : (0 <= PyQ.round_half_even (q * 100) <= 1000)%Z).
  { apply round_half_even_bounds; unfold inject_Z; qlra. }
  unfold Qle; simpl; lia.
Qed.

Lemma round2_zero : PyQ.round2 0 == 0.
Proof. reflexivity. Qed.

End PyQFacts.

Module LeadScoringFacts.
Open Scope Q_scope.
Import PyStr LeadScoring PyQFacts.



Lemma confidence_bounds l scores c :
  calculate_confidence l scores = Some c -> 1 # 10 <= c <= 1.
Proof.
  unfold calculate_confidence. destruct (count_present_fields l); [|discriminate].
  intros H. injection H as <-. apply clamp_bounds. qlra.
Qed.

End LeadScoringFacts.

(** ** Claim C1 *)
Module LeadScoringC1.
Open Scope Q_scope.
Import PyStr LeadScoring.

Definition empty_lead : Lead := mkLead [] [].

(** A criterion of a type without an evaluator and a [threshold_score]
    of 2. *)
Definition over_threshold_profile : Profile :=
  mkProfile [mkCriteria "income_level" 1 [] [] 2] None None None.

(** C1 (code bug): [_calculate_lead_score] normalizes to "0-10" and
    [LeadScoringResult] declares [score <= 10], but a criterion of a type
    without an evaluator uses its [threshold_score] as the raw score
    unclamped: the profile above gives the empty lead the score 20. *)
Theorem calculate_lead_score_unbounded :
  exists r, calculate_lead_score empty_lead over_threshold_profile = Some r /\
            total_score r == 20 /\ ~ (total_score r <= 10).
Proof.
  eexists. split; [reflexivity|]. split; [reflexivity|].
  unfold Qle. vm_compute. intro H. apply H. reflexivity.
Qed.

End LeadScoringC1.

(** ** Claim C2 *)
Module LeadScoringC2.
Open Scope Q_scope.
Import PyStr LeadScoring LeadReporting PyQFacts LeadScoringFacts.







End LeadScoringC2.

(** ** Claim C3 *)
Module LeadScoringC3.
Open Scope Q_scope.
Import PyStr LeadScoring PyQFacts.

(** C3 (amended): with [disqualify <= review <= qualify] (each threshold
    defaulting to 3, 5, 7) and a confidence of at least 0.5, [auto_disqualified]
    is returned only for scores at or below the disqualify threshold, scores
    in [[review, qualify)] are [review_required], scores strictly between
    the disqualify and the review thresholds are [manual_review], and
    scores at or above the qualify threshold are [auto_qualified]. *)
Theorem qualification_bands (sr : ScoreResult) (p : Profile)
    (Hconf : 1 # 2 <= confidence sr)
    (Hdr : PyQ.get_or (disqualify_threshold p) 3 <= PyQ.get_or (require_review_threshold p) 5)
    (Hrq : PyQ.get_or (require_review_threshold p) 5 <= PyQ.get_or (auto_qualify_threshold p) 7) :
  (determine_qualification_status sr p = auto_disqualified ->
   total_score sr <= PyQ.get_or (disqualify_threshold p) 3) /\
  (PyQ.get_or (require_review_threshold p) 5 <= total_score sr <
     PyQ.get_or (auto_qualify_threshold p) 7 ->
   determine_qualification_status sr p = review_required) /\
  (PyQ.get_or (disqualify_threshold p) 3 < total_score sr <
     PyQ.get_or (require_review_threshold p) 5 ->
   determine_qualification_status sr p = manual_review) /\
  (PyQ.get_or (auto_qualify_threshold p) 7 <= total_score sr ->
   determine_qualification_status sr p = auto_qualified).
Proof.
  unfold determine_qualification_status. cbv zeta.
  pose proof (lt_spec (confidence sr) (1 # 2)) as Hc.
  destruct (PyQ.lt (confidence sr) (1 # 2)); cbv iota in Hc; [qlra|].
  repeat split; intros; pyq_cases; try discriminate; try reflexivity; qlra.
Qed.

Definition profile_753 : Profile := mkProfile [] (Some 7) (Some 5) (Some 3).

Lemma qualification_bands_witness :
  determine_qualification_status (mkScoreResult 4 0 0 [] 1 []) profile_753 = manual_review.
Proof.
  destruct (qualification_bands (mkScoreResult 4 0 0 [] 1 []) profile_753)
    as [_ [_ [H _]]]; simpl; try qlra.
  apply H. simpl. split; qlra.
Defined.

(** C3 fails as stated: with thresholds 3 / 5 / 7 and confidence 1 the
    score 6, strictly between the review and the qualify thresholds, is
    [review_required], not [manual_review]. *)
Lemma between_review_and_qualify_is_review_required :
  determine_qualification_status (mkScoreResult 6 0 0 [] 1 []) profile_753 = review_required /\
  determine_qualification_status (mkScoreResult 6 0 0 [] 1 []) profile_753 <> manual_review.
Proof. split; [reflexivity | discriminate]. Qed.

End LeadScoringC3.

(** ** Claim C4 *)
Module LeadScoringC4.
Open Scope Q_scope.
Import PyStr LeadScoring LeadScoringFacts.






End LeadScoringC4.

(** ** Selecting a targeting rule *)
Module BureauTargetingSelection.
Open Scope Q_scope.
Import PyStr BureauTargeting PyQFacts.



End BureauTargetingSelection.

(** ** Claim C6 *)
Module BureauTargetingC6.
Open Scope Q_scope.
Import PyStr BureauTargeting BureauTargetingSelection.







End BureauTargetingC6.

(** ** Claim C7 *)
Module DunningC7.
Import Dunning.
Open Scope Z_scope.

Lemma get_next_sequence_step_number n steps step :
  get_next_sequence_step n steps = Some step -> step_number step = n.
Proof.
  unfold get_next_sequence_step. intros H. apply find_some in H.
  destruct H as [_ H]. apply Z.eqb_eq. exact H.
Qed.

(** One call either sends the step right after the stored one and
    stores it, or sends nothing and keeps the stored step. *)
Lemma process_step st steps amount now :
  let '(a, s') := process_dunning_sequence st steps amount now in
  (sent_steps [a] = [start_step st + 1] /\ current_step s' = start_step st + 1) \/
  (sent_steps [a] = [] /\ current_step s' = start_step st).
Proof.
  unfold process_dunning_sequence.
  assert (Hs : current_step (match st with Some s => s | None => start_new_sequence now end)
               = start_step st) by (destruct st; reflexivity).
  destruct (get_next_sequence_step _ steps) as [step|] eqn:E.
  - apply get_next_sequence_step_number in E.
    destruct (should_trigger_step _ _ _ _).
    + left. simpl. rewrite E, Hs. split; reflexivity.
    + right. split; [reflexivity | exact Hs].
  - right. split; [reflexivity | exact Hs].
Qed.

Lemma run_monotone st calls :
  let '(acts, final) := run st calls in
  start_step st <= start_step final /\
  Forall (fun n => start_step st < n) (sent_steps acts) /\
  StronglySorted Z.lt (sent_steps acts).
Proof.
  revert st. induction calls as [|[[steps amount] now] rest IH]; intros st.
  - simpl. split; [lia | split; constructor].
  - simpl run. pose proof (process_step st steps amount now) as Hp.
    destruct (process_dunning_sequence st steps amount now) as [a s'].
    specialize (IH (Some s')).
    destruct (run (Some s') rest) as [acts final].
    simpl start_step in IH. destruct IH as [Hmono [Hall Hsort]].
    assert (Hcons : sent_steps (a :: acts) = app (sent_steps [a]) (sent_steps acts))
      by (unfold sent_steps; simpl; rewrite app_nil_r; reflexivity).
    rewrite Hcons.
    destruct Hp as [[Ha Hc] | [Ha Hc]]; rewrite Ha; rewrite Hc in *.
    + split; [lia|]. split.
      * constructor; [lia|]. eapply Forall_impl; [|exact Hall]. intros n Hn; simpl in Hn; lia.
      * simpl. constructor; [exact Hsort | exact Hall].
    + split; [lia|]. split; [exact Hall | exact Hsort].
Qed.

(** C7: across successive calls of [process_dunning_sequence], each on
    the state stored by the previous call, the stored step never
    decreases and the sent steps are strictly increasing and all beyond
    the starting step, so none is sent twice; and when the next step
    exists but its conditions are not met, the call answers [wait] and
    leaves the stored state as it was, so two such calls in a row both
    answer [wait] with the same state. *)
Theorem dunning_monotone_and_wait :
  (forall st calls,
     start_step st <= start_step (snd (run st calls)) /\
     Forall (fun n => start_step st < n) (sent_steps (fst (run st calls))) /\
     StronglySorted Z.lt (sent_steps (fst (run st calls)))) /\
  (forall s steps amount now1 now2 step,
     get_next_sequence_step (current_step s + 1) steps = Some step ->
     should_trigger_step step s amount now1 = false ->
     should_trigger_step step s amount now2 = false ->
     process_dunning_sequence (Some s) steps amount now1
       = (wait (get_next_check_date step now1), s) /\
     process_dunning_sequence (Some s) steps amount now2
       = (wait (get_next_check_date step now2), s)).
Proof.
  split.
  - intros st calls. pose proof (run_monotone st calls) as H.
    destruct (run st calls). exact H.
  - intros s steps amount now1 now2 step Hstep H1 H2.
    unfold process_dunning_sequence. rewrite Hstep, H1, H2. split; reflexivity.
Qed.

Definition step1 : Step := mkStep 1 "dunning_1" (Some 24%Q) None.

Lemma dunning_monotone_and_wait_witness :
  process_dunning_sequence (Some (mkState 0 0 None)) [step1] 0 (3600 * 1)%Q
    = (wait (get_next_check_date step1 (3600 * 1)%Q), mkState 0 0 None) /\
  process_dunning_sequence (Some (mkState 0 0 None)) [step1] 0 (3600 * 2)%Q
    = (wait (get_next_check_date step1 (3600 * 2)%Q), mkState 0 0 None).
Proof.
  destruct dunning_monotone_and_wait as [_ H].
  apply H; reflexivity.
Defined.

End DunningC7.

(** ** Claim C8 *)
Module PaymentRetryC8.
Open Scope Q_scope.
Import PaymentRetry.

Definition payment_50 : Payment := mkPayment (Some 0%Z) (Some 5000).

(** C8 (amended): a failed payment of $50 with retry count 0 under the
    default configuration falls in the "low" tier, whose own strategy
    "fixed" overrides the configuration's "exponential": the next retry is
    exactly 12 hours (24 h x 0.5) after now and the estimated success rate
    is 0.7 x 1.1 (the fixed-strategy modifier) x max(0.5, 1.2 - 50/1000)
    = 0.8855, inside [[0.05, 0.95]]. *)
Theorem default_retry_50_dollars (now : Q) :
  rs_strategy (calculate_retry_strategy payment_50 default_config now) = "fixed" /\
  next_retry_date (calculate_retry_strategy payment_50 default_config now)
    == now + 12 * 3600 /\
  success_rate (calculate_retry_strategy payment_50 default_config now)
    == (7 # 10) * (11 # 10) * PyQ.max (1 # 2) ((12 # 10) - 50 / 1000) /\
  success_rate (calculate_retry_strategy payment_50 default_config now) == 8855 # 10000.
Proof.
  split; [reflexivity|]. split; [simpl; qlra|]. split; reflexivity.
Qed.

(** C8 fails as stated: the rate is not the exponential-modifier value
    0.7 x 0.9 x 1.15 = 0.7245. *)
Lemma default_retry_50_dollars_not_exponential :
  ~ (success_rate (calculate_retry_strategy payment_50 default_config 0)
     == PyQ.max (5 # 100) (PyQ.min (95 # 100)
          ((7 # 10) * (9 # 10) * PyQ.max (1 # 2) ((12 # 10) - 50 / 1000)))).
Proof. vm_compute. discriminate. Qed.

End PaymentRetryC8.

(** ** Claim C9 *)
Module SchedulingC9.
Open Scope Q_scope.
Import Scheduling.

(** The default path of [schedule_next_round] schedules the next round
    [30 + 15 (next - 1)] days from now and reports
    [max(0.1, 0.8 - 0.1 next)], without the dispute-type and
    responsiveness modifiers that [_estimate_success_probability] applies
    on the rule path. *)
Lemma default_scheduling_shape (d : Dispute) (prefers : bool) (now : Q) :
  let next := (PyQ.get_or (round_number d) 1 + 1)%Z in
  scheduled_date (schedule_next_round d None prefers now)
    = now + inject_Z (30 + (next - 1) * 15) /\
  estimated_success_probability (schedule_next_round d None prefers now)
    = PyQ.max (1 # 10) ((8 # 10) - inject_Z next * (1 # 10)).
Proof. split; reflexivity. Qed.

Definition charge_off_round_1 : Dispute :=
  mkDispute (Some 1%Z) (Some "charge_off") None None.

(** C9 at a concrete input: a charge-off dispute in round 1 with no rule
    for round 2 is scheduled 45 days out, as claimed, but is reported
    with the probability 0.6 where the claimed formula (the one the rule
    path computes) gives 0.6 x 0.6 x (0.8 + 0.4 x 0.5) = 0.36. *)
Theorem default_scheduling_skips_modifiers (now : Q) :
  scheduled_date (schedule_next_round charge_off_round_1 None false now) = now + 45 /\
  estimated_success_probability (schedule_next_round charge_off_round_1 None false now)
    == 6 # 10 /\
  estimate_success_probability charge_off_round_1 2 == 36 # 100 /\
  ~ (estimated_success_probability (schedule_next_round charge_off_round_1 None false now)
     == estimate_success_probability charge_off_round_1 2).
Proof.
  split; [reflexivity|]. split; [reflexivity|]. split; [reflexivity|].
  vm_compute. discriminate.
Qed.

End SchedulingC9.

(** ** Claim C10 *)
Module ChurnC10.
Open Scope R_scope.
Import Churn.

Lemma determine_risk_level_monotone p q :
  p <= q -> (risk_rank (determine_risk_level p) <= risk_rank (determine_risk_level q))%nat.
Proof.
  intros H. unfold determine_risk_level.
  destruct (Rle_dec (7 / 10) p); destruct (Rle_dec (7 / 10) q);
  destruct (Rle_dec (5 / 10) p); destruct (Rle_dec (5 / 10) q);
  destruct (Rle_dec (3 / 10) p); destruct (Rle_dec (3 / 10) q);
  simpl; try lia; lra.
Qed.

(** C10: [_determine_risk_level] is [critical] exactly when p >= 0.7,
    [high] exactly when 0.5 <= p < 0.7, [medium] exactly when
    0.3 <= p < 0.5 and [low] exactly when p < 0.3, and it is monotone
    in p (for every real p, not only those of [[0, 1]]). *)
Theorem determine_risk_level_cuts (p : R) :
  (determine_risk_level p = critical <-> 7 / 10 <= p) /\
  (determine_risk_level p = high <-> 5 / 10 <= p < 7 / 10) /\
  (determine_risk_level p = medium <-> 3 / 10 <= p < 5 / 10) /\
  (determine_risk_level p = low <-> p < 3 / 10) /\
  (forall q, p <= q ->
     (risk_rank (determine_risk_level p) <= risk_rank (determine_risk_level q))%nat).
Proof.
  split; [|split; [|split; [|split]]];
    [ .. | intros q; apply determine_risk_level_monotone].
  all: unfold determine_risk_level;
    destruct (Rle_dec (7 / 10) p); [|destruct (Rle_dec (5 / 10) p);
                                     [|destruct (Rle_dec (3 / 10) p)]];
    split; intros; try discriminate; try reflexivity; try lra.
Qed.

Lemma determine_risk_level_cuts_witness :
  (risk_rank (determine_risk_level (1 / 10)) <= risk_rank (determine_risk_level (9 / 10)))%nat.
Proof.
  destruct (determine_risk_level_cuts (1 / 10)) as [_ [_ [_ [_ H]]]].
  apply H. lra.
Defined.

End ChurnC10.

(** ** Claim C5 *)
Module ChurnC5.
Open Scope R_scope.
Import Churn.

Lemma sigmoid_monotone x y : x <= y -> sigmoid x <= sigmoid y.
Proof.
  intros H. unfold sigmoid, Rdiv. rewrite !Rmult_1_l.
  assert (Hexp : exp (-6 * (y - / 2)) <= exp (-6 * (x - / 2))).
  { destruct (Req_dec x y) as [-> | Hne]; [lra|].
    left. apply exp_increasing. lra. }
  pose proof (exp_pos (-6 * (y - / 2))).
  apply Rinv_le_contravar; lra.
Qed.

Lemma clamp01_monotone x y :
  x <= y -> Rmax 0 (Rmin 1 x) <= Rmax 0 (Rmin 1 y).
Proof.
  intros H. unfold Rmin.
  destruct (Rle_dec 1 x); destruct (Rle_dec 1 y); unfold Rmax;
  repeat match goal with |- context [Rle_dec ?a ?b] => destruct (Rle_dec a b) end;
    lra.
Qed.

Lemma clamp01_bounds x : 0 <= Rmax 0 (Rmin 1 x) <= 1.
Proof.
  unfold Rmin. destruct (Rle_dec 1 x); unfold Rmax;
  repeat match goal with |- context [Rle_dec ?a ?b] => destruct (Rle_dec a b) end;
    lra.
Qed.

Lemma churn_probability_sigmoid fs :
  total_weight fs <> 0 ->
  calculate_churn_probability fs = Rmax 0 (Rmin 1 (sigmoid (normalized_risk fs))).
Proof.
  intros H. unfold calculate_churn_probability.
  destruct fs as [|f fs']; [unfold total_weight in H; simpl in H; lra|].
  destruct (Req_EM_T (total_weight (f :: fs')) 0); [contradiction | reflexivity].
Qed.

(** C5: the churn probability is always in [[0, 1]], and for two factor
    lists whose normalized weighted risk is defined (non-zero total
    weight), the one with the higher normalized weighted risk never gets
    the lower probability. *)
Theorem churn_probability_bounded_monotone :
  (forall fs, 0 <= calculate_churn_probability fs <= 1) /\
  (forall fs1 fs2,
     total_weight fs1 <> 0 -> total_weight fs2 <> 0 ->
     normalized_risk fs1 <= normalized_risk fs2 ->
     calculate_churn_probability fs1 <= calculate_churn_probability fs2).
Proof.
  split.
  - intros fs. unfold calculate_churn_probability.
    destruct fs as [|f fs']; [lra|].
    destruct (Req_EM_T (total_weight (f :: fs')) 0); [lra | apply clamp01_bounds].
  - intros fs1 fs2 H1 H2 Hle.
    rewrite (churn_probability_sigmoid fs1 H1), (churn_probability_sigmoid fs2 H2).
    apply clamp01_monotone, sigmoid_monotone, Hle.
Qed.

Definition low_risk : list RiskFactor := [mkRiskFactor (Some 2) (Some (2 / 10))].
Definition high_risk : list RiskFactor := [mkRiskFactor (Some 2) (Some (8 / 10))].

Lemma churn_probability_bounded_monotone_witness :
  calculate_churn_probability low_risk <= calculate_churn_probability high_risk.
Proof.
  destruct churn_probability_bounded_monotone as [_ H].
  assert (Hl : normalized_risk low_risk = 2 / 10).
  { unfold normalized_risk, total_weighted_risk, total_weight,
      factor_weight, factor_impact; simpl; field. }
  assert (Hh : normalized_risk high_risk = 8 / 10).
  { unfold normalized_risk, total_weighted_risk, total_weight,
      factor_weight, factor_impact; simpl; field. }
  apply H; [unfold total_weight, factor_weight; simpl; intro Hx; lra
           | unfold total_weight, factor_weight; simpl; intro Hx; lra |].
  rewrite Hl, Hh. lra.
Defined.

End ChurnC5.

(** * Further properties of the services *)

Module ExtraFacts.
Open Scope Q_scope.
Import PyQFacts.

Lemma min_le_r a b : PyQ.min a b <= b.
Proof. unfold PyQ.min. pose proof (lt_spec b a). destruct (PyQ.lt b a); qlra. Qed.

Lemma max_ge_r a b : b <= PyQ.max a b.
Proof. unfold PyQ.max. pose proof (lt_spec a b). destruct (PyQ.lt a b); qlra. Qed.

Lemma max_mono_r c a b : a <= b -> PyQ.max c a <= PyQ.max c b.
Proof. intros H. unfold PyQ.max. pyq_cases; qlra. Qed.

Lemma min_mono_r c a b : a <= b -> PyQ.min c a <= PyQ.min c b.
Proof. intros H. unfold PyQ.min. pyq_cases; qlra. Qed.

(** [max(lo, min(hi, x))] is monotone in [x]. *)
Lemma clamp_mono lo hi x y :
  x <= y -> PyQ.max lo (PyQ.min hi x) <= PyQ.max lo (PyQ.min hi y).
Proof. intros H. apply max_mono_r, min_mono_r, H. Qed.

Lemma round_half_even_digits (a b : Z) (d : positive) q :
  inject_Z a <= q * inject_Z (Zpos d) -> q * inject_Z (Zpos d) <= inject_Z b ->
  Qmake a d <= Qmake (PyQ.round_half_even (q * inject_Z (Zpos d))) d
  /\ Qmake (PyQ.round_half_even (q * inject_Z (Zpos d))) d <= Qmake b d.
Proof.
  intros Ha Hb. pose proof (round_half_even_bounds a b _ Ha Hb) as H.
  unfold Qle; simpl; split; nia.
Qed.

(** [int(x)] is monotone. *)
Lemma py_int_mono x y : x <= y -> (Scheduling.py_int x <= Scheduling.py_int y)%Z.
Proof.
  intros H. unfold Scheduling.py_int.
  assert (Hf : forall u v, u <= v -> (Qfloor u <= Qfloor v)%Z) by (intros; apply Qfloor_resp_le; auto).
  pyq_cases.
  - apply Hf, H.
  - qlra.
  - assert (0 <= - x) by qlra. apply Hf in H0. apply Hf in Hc0.
    change (Qfloor 0) with 0%Z in *. lia.
  - assert (- y <= - x) by qlra. apply Hf in H0. lia.
Qed.

Lemma Qdiv_nonneg a b : 0 <= a -> 0 < b -> 0 <= a / b.
Proof. intros Ha Hb. apply Qle_shift_div_l; [exact Hb | qlra]. Qed.

Lemma of_nat_nonneg n : 0 <= PyQ.of_nat n.
Proof. unfold PyQ.of_nat. change 0 with (inject_Z 0). rewrite <- Zle_Qle. lia. Qed.

Lemma of_nat_le m n : (m <= n)%nat -> PyQ.of_nat m <= PyQ.of_nat n.
Proof. intros H. unfold PyQ.of_nat. rewrite <- Zle_Qle. lia. Qed.

End ExtraFacts.

(** ** Letter generation *)
Module LettersFacts.
Open Scope Q_scope.
Import PyStr Letters PyQFacts ExtraFacts.

(** Extra X1: the template score is the priority and success-rate part
    plus bonuses that add up to at most 5.5. *)
Theorem template_score_bonus_bounds t d :
  let base := PyQ.get_or (priority t) 0 * (3 # 10) + PyQ.get_or (success_rate t) (1 # 2) * 2 in
  base <= calculate_template_score t d <= base + (11 # 2).
Proof.
  cbv zeta. unfold calculate_template_score. cbv zeta.
  set (u := PyQ.get_or (usage_count t) 0).
  pose proof (lt_spec 0 u) as Hu.
  assert (Hm : 0 < u -> 0 <= PyQ.min (u * (1 # 10)) 1 <= 1).
  { intros H. split; [apply min_ge; qlra | apply min_le_r]. }
  destruct (opt_mem (dispute_type d) (dispute_types t));
  destruct (opt_mem (bureau d) (bureau_targets t));
  destruct (round_optimized t && _)%bool;
  destruct (PyQ.lt 0 u); try specialize (Hm Hu); qlra.
Qed.

Lemma fold_insert_head {A} (l : list (A * Q)) y r :
  exists b r', fold_left (fun acc x => insert_desc x acc) l (y :: r) = b :: r' /\
  ((b = y /\ Forall (fun z => snd z <= snd y) l) \/
   (exists pre post, l = app pre (b :: post) /\ snd y < snd b /\
      Forall (fun z => snd z < snd b) pre /\ Forall (fun z => snd z <= snd b) post)).
Proof.
  revert y r. induction l as [|x l IH]; intros y r.
  - exists y, r. split; [reflexivity | left; split; [reflexivity | constructor]].
  - simpl. pose proof (le_spec (snd x) (snd y)) as Hxy.
    destruct (PyQ.le (snd x) (snd y)).
    + destruct (IH y (insert_desc x r)) as (b & r' & E & H).
      exists b, r'. split; [exact E|].
      destruct H as [[-> Hall] | (pre & post & -> & Hyb & Hpre & Hpost)].
      * left. split; [reflexivity | constructor; assumption].
      * right. exists (x :: pre), post. repeat split; try assumption.
        constructor; [qlra | assumption].
    + destruct (IH x (y :: r)) as (b & r' & E & H).
      exists b, r'. split; [exact E|]. right.
      destruct H as [[-> Hall] | (pre & post & -> & Hxb & Hpre & Hpost)].
      * exists [], l. repeat split; [exact Hxy | constructor | exact Hall].
      * exists (x :: pre), post. repeat split; [qlra | | assumption].
        constructor; assumption.
Qed.

(** Extra X2: with at least one active template, the template chosen is
    the first one of highest score: every template before it scores
    strictly less, every template after it at most as much. *)
Theorem select_optimal_template_first_best ts d :
  ts <> [] ->
  exists pre t post, ts = app pre (t :: post) /\ select_optimal_template ts d = id t /\
    Forall (fun t' => calculate_template_score t' d < calculate_template_score t d) pre /\
    Forall (fun t' => calculate_template_score t' d <= calculate_template_score t d) post.
Proof.
  intros Hne. destruct ts as [|t0 rest]; [congruence|].
  set (g := fun t => (t, calculate_template_score t d)).
  unfold select_optimal_template, sort_desc. fold g.
  cbn [map fold_left insert_desc].
  destruct (fold_insert_head (map g rest) (g t0) []) as (b & r' & E & H).
  rewrite E.
  destruct H as [[-> Hall] | (pre & post & Hm & Hyb & Hpre & Hpost)].
  - exists [], t0, rest. split; [reflexivity|]. split; [reflexivity|].
    split; [constructor|].
    apply (proj1 (Forall_map g (fun z => snd z <= snd (g t0)) rest)) in Hall. exact Hall.
  - apply map_eq_app in Hm. destruct Hm as (pre' & l2 & -> & Hpre' & Hl2).
    apply map_eq_cons in Hl2. destruct Hl2 as (t & post' & -> & Ht & Hpost').
    subst b pre post.
    exists (t0 :: pre'), t, post'. split; [reflexivity|]. split; [reflexivity|].
    split.
    + constructor; [exact Hyb|].
      apply (proj1 (Forall_map g (fun z => snd z < snd (g t)) pre')) in Hpre. exact Hpre.
    + apply (proj1 (Forall_map g (fun z => snd z <= snd (g t)) post')) in Hpost. exact Hpost.
Qed.

Lemma filter_truthy_nil (l : list string) :
  filter truthy l = [] <-> Forall (fun s => s = "") l.
Proof.
  induction l as [|x l IH]; simpl; [split; constructor|].
  destruct x as [|c x]; simpl.
  - split; intros H.
    + constructor; [reflexivity | apply IH, H].
    + inversion H; subst. apply IH. assumption.
  - split; intros H; [discriminate | inversion H; discriminate].
Qed.

Lemma concat_truthy_empty sep (l : list string) :
  Forall (fun s => truthy s = true) l -> String.concat sep l = "" -> l = [].
Proof.
  intros Hall He. destruct l as [|x l]; [reflexivity|].
  inversion Hall as [|? ? Hx _]; subst.
  destruct x as [|c x]; [discriminate|].
  destruct l; discriminate.
Qed.

(** Extra X3: the formatted address is empty exactly when none of the
    four address fields is filled. *)
Theorem format_address_empty client :
  format_address client = "" <->
  Forall (fun k => get k client = "") ["street_address"; "city"; "state"; "zip_code"].
Proof.
  unfold format_address.
  change [get "street_address" client; get "city" client; get "state" client;
          get "zip_code" client]
    with (map (fun k => get k client) ["street_address"; "city"; "state"; "zip_code"]).
  assert (E : Forall (fun k => get k client = "") ["street_address"; "city"; "state"; "zip_code"]
              <-> Forall (fun s => s = "")
                    (map (fun k => get k client) ["street_address"; "city"; "state"; "zip_code"]))
    by (symmetry; apply Forall_map).
  rewrite E, <- filter_truthy_nil.
  split; intros H.
  - apply (concat_truthy_empty ", "); [|exact H].
    apply Forall_forall. intros x Hx. apply filter_In in Hx. apply Hx.
  - rewrite H. reflexivity.
Qed.

Definition sample_templates : list Template :=
  [mkTemplate "generic" (Some 1) [] [] false None None;
   mkTemplate "late_payment" (Some 1) ["late_payment"] ["equifax"] true (Some (1 # 2)) None;
   mkTemplate "late_payment_v2" (Some 1) ["late_payment"] ["equifax"] true (Some (1 # 2)) None].

Definition sample_letter_dispute : Dispute :=
  mkDispute (Some "late_payment") (Some "equifax") (Some 2%Z).

Lemma select_optimal_template_first_best_witness :
  exists pre t post, sample_templates = app pre (t :: post) /\
    select_optimal_template sample_templates sample_letter_dispute = id t /\
    Forall (fun t' => calculate_template_score t' sample_letter_dispute
                      < calculate_template_score t sample_letter_dispute) pre /\
    Forall (fun t' => calculate_template_score t' sample_letter_dispute
                      <= calculate_template_score t sample_letter_dispute) post.
Proof. apply select_optimal_template_first_best. discriminate. Defined.

End LettersFacts.

(** ** Lead recommendations, breakdown and analytics *)
Module LeadReportingFacts.
Open Scope Q_scope.
Import PyStr LeadScoring LeadReporting PyQFacts ExtraFacts.

Lemma dict_set_in {V} k (v : V) d : In (k, v) (dict_set k v d).
Proof.
  induction d as [|[k' v'] d IH]; simpl; [left; reflexivity|].
  destruct (String.eqb k k'); [left; reflexivity | right; exact IH].
Qed.

Lemma dict_set_keep {V} k (v : V) k' v' d :
  k <> k' -> In (k, v) d -> In (k, v) (dict_set k' v' d).
Proof.
  intros Hne. induction d as [|[k'' v''] d IH]; simpl; [tauto|].
  destruct (String.eqb k' k'') eqn:E.
  - apply String.eqb_eq in E. subst k''. intros [H | H].
    + inversion H; subst. congruence.
    + right. exact H.
  - intros [H | H]; [left; exact H | right; apply IH, H].
Qed.

(** Some criterion of type [k] whose score satisfies [P] stays in the
    breakdown once one is there, or once a criterion of that type is met. *)
Lemma accumulate_key l k (P : CriteriaScore -> Prop) cs scores total maxp reasons res :
  (forall c sr, In c cs -> criteria_type c = k -> score_criteria l c = Some sr -> P sr) ->
  (exists v, In (k, v) scores /\ P v) \/ (exists c, In c cs /\ criteria_type c = k) ->
  accumulate l cs (scores, total, maxp, reasons) = Some res ->
  match res with
  | (sc, _, _, _) => exists v, In (k, v) sc /\ P v
  end.
Proof.
  revert scores total maxp reasons.
  induction cs as [|c cs IH]; intros scores total maxp reasons Hp Hin Hacc.
  - injection Hacc as <-. destruct Hin as [H | (c & [] & _)]. exact H.
  - simpl accumulate in Hacc. destruct (score_criteria l c) as [sr|] eqn:Es; [|discriminate].
    refine (IH _ _ _ _ _ _ Hacc).
    + intros c' sr' Hc'. apply Hp. right. exact Hc'.
    + destruct (String.eqb (criteria_type c) k) eqn:E.
      * apply String.eqb_eq in E. left. exists sr.
        rewrite E. split; [apply dict_set_in | apply (Hp c); [left; reflexivity | exact E | exact Es]].
      * apply String.eqb_neq in E.
        destruct Hin as [(v & Hv & HP) | (c' & [-> | Hc'] & Ht)].
        -- left. exists v. split; [apply dict_set_keep; [congruence | exact Hv] | exact HP].
        -- congruence.
        -- right. exists c'. split; assumption.
Qed.

Lemma weak_phone_in scores v :
  In ("phone_format", v) scores -> cs_raw_score v < 1 # 2 ->
  In "Request valid phone number for contact" (weak_criteria_recommendations scores).
Proof.
  intros Hin Hv. induction scores as [|[k sd] scores IH]; [destruct Hin|].
  simpl. apply in_or_app. destruct Hin as [H | H].
  - inversion H; subst. left. pose proof (lt_spec (cs_raw_score v) (1 # 2)) as Hl.
    destruct (PyQ.lt (cs_raw_score v) (1 # 2)); [left; reflexivity | qlra].
  - right. apply IH, H.
Qed.

(** Extra X5: a lead without a phone number (absent or empty), scored
    without error by a profile that has a [phone_format] criterion, is
    always advised to give a valid phone number, whatever its
    qualification status. *)
Theorem missing_phone_recommended l p s r :
  calculate_lead_score l p = Some r ->
  lget "phone" l = PStr "" ->
  (exists c, In c (criteria p) /\ criteria_type c = "phone_format") ->
  In "Request valid phone number for contact" (generate_recommendations r s).
Proof.
  intros Hr Hphone Hc. unfold calculate_lead_score in Hr.
  destruct (accumulate l (criteria p) ([], 0, 0, [])) as [[[[sc t] m] rs]|] eqn:Ea;
    [|discriminate].
  destruct (calculate_confidence l sc); [|discriminate].
  injection Hr as <-.
  assert (Hacc := accumulate_key l "phone_format" (fun v => cs_raw_score v < 1 # 2)
                    (criteria p) [] 0 0 [] (sc, t, m, rs)).
  destruct Hacc as (v & Hv & Hlt).
  - intros c sr _ Ht. unfold score_criteria, evaluate. rewrite Ht. simpl.
    unfold score_phone_format.
    rewrite Hphone. simpl. intros E. injection E as <-. simpl. qlra.
  - right. exact Hc.
  - exact Ea.
  - unfold generate_recommendations. simpl. apply in_or_app. right.
    apply (weak_phone_in sc v Hv Hlt).
Qed.

Lemma dict_set_keys {V} k (v : V) d :
  NoDup (map fst d) ->
  NoDup (map fst (dict_set k v d)) /\
  (forall k', In k' (map fst (dict_set k v d)) <-> k' = k \/ In k' (map fst d)).
Proof.
  induction d as [|[k' v'] d IH]; intros Hnd; simpl.
  - split; [constructor; [tauto | constructor]|]. intros k''. simpl.
    split; intros H; repeat destruct H as [H | H]; subst; tauto.
  - inversion Hnd as [|? ? Hnin Hnd']; subst.
    destruct (String.eqb k k') eqn:E.
    + apply String.eqb_eq in E. subst k'. simpl. split; [exact Hnd|].
      intros k''. simpl. split; intros H; repeat destruct H as [H | H]; subst; tauto.
    + apply String.eqb_neq in E. destruct (IH Hnd') as [Hnd2 Hk].
      simpl. split.
      * constructor; [|exact Hnd2]. rewrite Hk. intros [H | H]; [congruence | contradiction].
      * intros k''. rewrite Hk. split; intros H; repeat destruct H as [H | H]; subst; tauto.
Qed.

Lemma accumulate_keys l cs scores total maxp reasons res :
  NoDup (map fst scores) ->
  accumulate l cs (scores, total, maxp, reasons) = Some res ->
  match res with
  | (sc, _, _, _) =>
    NoDup (map fst sc) /\
    (forall k, In k (map fst sc) <->
               In k (map fst scores) \/ exists c, In c cs /\ criteria_type c = k)
  end.
Proof.
  revert scores total maxp reasons.
  induction cs as [|c cs IH]; intros scores total maxp reasons Hnd Hacc.
  - injection Hacc as <-. split; [exact Hnd|]. intros k. split; [tauto|].
    intros [H | (c & [] & _)]. exact H.
  - simpl accumulate in Hacc. destruct (score_criteria l c) as [sr|]; [|discriminate].
    destruct (dict_set_keys (criteria_type c) sr scores Hnd) as [Hnd2 Hk].
    specialize (IH _ _ _ _ Hnd2 Hacc).
    destruct res as [[[sc t] m] r].
    destruct IH as [Hnd3 Hk3]. split; [exact Hnd3|].
    intros k. rewrite Hk3, Hk. split.
    + intros [[-> | H] | (c' & Hc' & Ht)].
      * right. exists c. split; [left | ]; reflexivity.
      * left. exact H.
      * right. exists c'. split; [right; exact Hc' | exact Ht].
    + intros [H | (c' & [-> | Hc'] & Ht)].
      * left. right. exact H.
      * left. left. symmetry. exact Ht.
      * right. exists c'. split; assumption.
Qed.

(** Extra X7: the breakdown [criteria_scores] has one entry per criteria
    type of the profile: no key twice, and exactly the types that occur. *)
Theorem criteria_scores_keys l p r :
  calculate_lead_score l p = Some r ->
  NoDup (map fst (criteria_scores r)) /\
  (forall k, In k (map fst (criteria_scores r)) <->
             exists c, In c (criteria p) /\ criteria_type c = k).
Proof.
  intros Hr. unfold calculate_lead_score in Hr.
  destruct (accumulate l (criteria p) ([], 0, 0, [])) as [res|] eqn:Ea; [|discriminate].
  pose proof (accumulate_keys l (criteria p) [] 0 0 [] res (NoDup_nil _) Ea) as H.
  destruct res as [[[sc t] m] rs].
  destruct (calculate_confidence l sc); [|discriminate].
  injection Hr as <-. simpl. destruct H as [Hnd Hk]. split; [exact Hnd|].
  intros k. rewrite Hk. simpl. tauto.
Qed.

Lemma in_range_true a b q : a <= q < b -> in_range a b q = true.
Proof.
  intros [H1 H2]. unfold in_range.
  pose proof (le_spec a q). pose proof (lt_spec q b).
  destruct (PyQ.le a q), (PyQ.lt q b); simpl; try reflexivity; qlra.
Qed.

Lemma in_range_false a b q : q < a \/ b <= q -> in_range a b q = false.
Proof.
  intros H. unfold in_range.
  pose proof (le_spec a q). pose proof (lt_spec q b).
  destruct (PyQ.le a q), (PyQ.lt q b); simpl; try reflexivity; qlra.
Qed.

Lemma bucket_one q :
  ((if in_range 0 2 q then 1 else 0) + (if in_range 2 4 q then 1 else 0)
   + (if in_range 4 6 q then 1 else 0) + (if in_range 6 8 q then 1 else 0)
   + (if in_range 8 10 q then 1 else 0))%nat
  = (if in_range 0 10 q then 1 else 0)%nat.
Proof.
  assert (Hq : q < 0 \/ (0 <= q < 2) \/ (2 <= q < 4) \/ (4 <= q < 6) \/ (6 <= q < 8)
               \/ (8 <= q < 10) \/ 10 <= q).
  { destruct (Qlt_le_dec q 0); [left; exact q0|].
    destruct (Qlt_le_dec q 2); [right; left; split; assumption|].
    destruct (Qlt_le_dec q 4); [do 2 right; left; split; assumption|].
    destruct (Qlt_le_dec q 6); [do 3 right; left; split; assumption|].
    destruct (Qlt_le_dec q 8); [do 4 right; left; split; assumption|].
    destruct (Qlt_le_dec q 10); [do 5 right; left; split; assumption|].
    do 6 right. assumption. }
  destruct Hq as [H | [H | [H | [H | [H | [H | H]]]]]];
  repeat first [ rewrite in_range_true by qlra
               | rewrite in_range_false by (left; qlra)
               | rewrite in_range_false by (right; qlra) ];
  reflexivity.
Qed.

Lemma length_filter_map {A B} (p : B -> bool) (f : A -> B) (l : list A) :
  List.length (filter p (map f l)) = List.length (filter (fun x => p (f x)) l).
Proof.
  induction l as [|x l IH]; simpl; [reflexivity|].
  destruct (p (f x)); simpl; rewrite IH; reflexivity.
Qed.

Lemma buckets_sum (xs : list Q) :
  (List.length (filter (in_range 0 2) xs) + (List.length (filter (in_range 2 4) xs)
   + (List.length (filter (in_range 4 6) xs) + (List.length (filter (in_range 6 8) xs)
   + (List.length (filter (in_range 8 10) xs) + 0)))))%nat
  = List.length (filter (in_range 0 10) xs).
Proof.
  induction xs as [|x xs IH]; simpl; [reflexivity|].
  pose proof (bucket_one x) as Hb.
  destruct (in_range 0 2 x), (in_range 2 4 x), (in_range 4 6 x), (in_range 6 8 x),
           (in_range 8 10 x), (in_range 0 10 x); simpl in *; lia.
Qed.

Lemma fold_plus_bounds (xs : list Q) a :
  Forall (fun x => 0 <= x <= 10) xs ->
  a <= fold_left Qplus xs a <= a + PyQ.of_nat (List.length xs) * 10.
Proof.
  revert a. induction xs as [|x xs IH]; intros a Hall; cbn [fold_left List.length].
  - assert (H0 : PyQ.of_nat 0 == 0) by reflexivity. qlra.
  - inversion Hall as [|? ? Hx Hxs]; subst.
    destruct (IH (a + x) Hxs) as [H1 H2].
    assert (HS : PyQ.of_nat (S (List.length xs)) == PyQ.of_nat (List.length xs) + 1).
    { unfold PyQ.of_nat. rewrite Nat2Z.inj_succ, <- Z.add_1_r, inject_Z_plus. reflexivity. }
    qlra.
Qed.

(** Extra X6: over a non-empty set of results with scores in [[0, 10]],
    the average score lies in [[0, 10]], and the five buckets of the score
    distribution together count exactly the scores below 10: a perfect
    score of 10 falls in no bucket. *)
Theorem scoring_analytics_distribution rows :
  rows <> [] ->
  Forall (fun r => 0 <= row_score r <= 10) rows ->
  0 <= average_score (get_scoring_analytics rows) <= 10 /\
  fold_right plus 0%nat (map bucket_count (score_distribution (get_scoring_analytics rows)))
  = List.length (filter (fun r => PyQ.lt (row_score r) 10) rows).
Proof.
  intros Hne Hall. destruct rows as [|r0 rest]; [congruence|].
  set (rows := r0 :: rest). unfold get_scoring_analytics. fold rows.
  change (match rows with [] => _ | _ => ?x end) with x. cbv zeta.
  split.
  - apply round2_bounds.
    assert (Hs : Forall (fun x => 0 <= x <= 10) (map row_score rows)) by (apply Forall_map; exact Hall).
    pose proof (fold_plus_bounds _ 0 Hs) as [H1 H2].
    rewrite length_map in H2.
    assert (Hn : 0 < PyQ.of_nat (List.length rows)).
    { unfold PyQ.of_nat. change 0 with (inject_Z 0). rewrite <- Zlt_Qlt. simpl. lia. }
    split.
    + apply Qdiv_nonneg; qlra.
    + apply Qle_shift_div_r; [exact Hn | qlra].
  - cbn [map score_ranges fold_right bucket_count score_distribution].
    rewrite buckets_sum, length_filter_map.
    f_equal. apply filter_ext_in. intros r Hr.
    rewrite Forall_forall in Hall. specialize (Hall r Hr).
    pose proof (lt_spec (row_score r) 10) as Hl.
    destruct (PyQ.lt (row_score r) 10).
    + apply in_range_true. qlra.
    + apply in_range_false. right. qlra.
Qed.

Definition phone_profile : Profile :=
  mkProfile [mkCriteria "phone_format" 1 [] [] 0] None None None.

Lemma missing_phone_recommended_witness :
  exists r, calculate_lead_score (mkLead [] []) phone_profile = Some r /\
    In "Request valid phone number for contact" (generate_recommendations r review_required).
Proof.
  eexists. split; [reflexivity|].
  apply (missing_phone_recommended (mkLead [] []) phone_profile); [reflexivity | reflexivity |].
  exists (mkCriteria "phone_format" 1 [] [] 0). split; [left; reflexivity | reflexivity].
Defined.

(** Extra X26: whenever [_calculate_lead_score] returns, its confidence
    lies in [[0.1, 1]]. *)
Theorem lead_confidence_bounds l p r :
  calculate_lead_score l p = Some r -> 1 # 10 <= confidence r <= 1.
Proof.
  unfold calculate_lead_score.
  destruct (accumulate l (criteria p) ([], 0, 0, [])) as [[[[sc t] m] rs]|]; [|discriminate].
  destruct (calculate_confidence l sc) as [c|] eqn:Ec; [|discriminate].
  intros H. injection H as <-. exact (LeadScoringFacts.confidence_bounds l sc c Ec).
Qed.

Lemma lead_confidence_bounds_witness :
  exists r, calculate_lead_score (mkLead [] []) phone_profile = Some r /\
    1 # 10 <= confidence r <= 1.
Proof.
  eexists. split; [reflexivity|].
  apply (lead_confidence_bounds (mkLead [] []) phone_profile). reflexivity.
Defined.

Definition two_criteria_profile : Profile :=
  mkProfile [mkCriteria "phone_format" 1 [] [] 0; mkCriteria "name_completeness" 2 [] [] 0;
             mkCriteria "phone_format" 3 [] [] 0] None None None.

Lemma criteria_scores_keys_witness :
  exists r, calculate_lead_score (mkLead [] []) two_criteria_profile = Some r /\
    NoDup (map fst (criteria_scores r)).
Proof.
  eexists. split; [reflexivity|].
  apply (criteria_scores_keys (mkLead [] []) two_criteria_profile). reflexivity.
Defined.

Definition sample_rows : list ScoringRow :=
  [mkScoringRow 10 "auto_qualified"; mkScoringRow (13 # 2) "review_required";
   mkScoringRow 2 "auto_disqualified"].

Lemma scoring_analytics_distribution_witness :
  0 <= average_score (get_scoring_analytics sample_rows) <= 10 /\
  fold_right plus 0%nat (map bucket_count (score_distribution (get_scoring_analytics sample_rows)))
  = List.length (filter (fun r => PyQ.lt (row_score r) 10) sample_rows).
Proof.
  apply scoring_analytics_distribution; [discriminate |].
  repeat constructor; cbn [row_score]; qlra.
Defined.

End LeadReportingFacts.

(** ** Bureau targeting *)
Module BureauTargetingFacts.
Open Scope Q_scope.
Import PyStr BureauTargeting PyQFacts ExtraFacts BureauTargetingSelection.

(** Extra X8: a rule's relevance never exceeds 1, and is non-negative
    when its recorded successes are. *)
Theorem rule_relevance_bounds rule d ch :
  0 <= PyQ.get_or (success_history rule) 0 ->
  0 <= calculate_rule_relevance rule d ch <= 1.
Proof.
  intros Hs. unfold calculate_rule_relevance. cbv zeta.
  set (rel := if String.eqb _ "dispute_type_based" then _ else _).
  assert (Hrel : 0 <= rel).
  { subst rel. repeat match goal with
                      | |- context [if ?b then _ else _] => destruct b
                      | |- context [match ?x with Some _ => _ | None => _ end] => destruct x
                      | |- context [match ?x with Some _ => _ | _ => _ end] => destruct x
                      | |- context [match ?x with [] => _ | _ :: _ => _ end] => destruct x
                      end; qlra. }
  assert (Hm : 1 <= PyQ.max (PyQ.get_or (total_applications rule) 1) 1) by apply max_ge_r.
  assert (Hsr : 0 <= PyQ.get_or (success_history rule) 0
                     / PyQ.max (PyQ.get_or (total_applications rule) 1) 1)
    by (apply Qdiv_nonneg; qlra).
  split; [apply min_ge; qlra | apply min_le_r].
Qed.


Definition sample_rule : Rule :=
  mkRule (Some "late_payment_rule") (Some "dispute_type")
         (mkRuleCriteria ["late_payment"] [] None) (Some (4 # 5)) (Some 10)
         (Some ["experian"]) (Some (9 # 10)).

Definition sample_targeting_dispute : Dispute :=
  mkDispute (Some "late_payment") (Some "Capital Bank").

Lemma rule_relevance_bounds_witness :
  0 <= calculate_rule_relevance sample_rule sample_targeting_dispute None <= 1.
Proof. apply rule_relevance_bounds. cbn. qlra. Defined.


End BureauTargetingFacts.

(** ** Round scheduling *)
Module SchedulingFacts.
Open Scope Q_scope.
Import PyStr Scheduling PyQFacts ExtraFacts.

(** Extra X11: the estimated success probability of a round lies in
    [[0.05, 0.95]], and for a non-negative responsiveness score a later
    round never gets a higher estimate. *)
Theorem success_probability_bounds_antitone d r1 r2 :
  0 <= PyQ.get_or (client_responsiveness_score d) (1 # 2) -> (r1 <= r2)%Z ->
  5 # 100 <= estimate_success_probability d r1 <= 95 # 100 /\
  estimate_success_probability d r2 <= estimate_success_probability d r1.
Proof.
  intros Hr Hle. split; [apply clamp_bounds; qlra|].
  unfold estimate_success_probability. cbv zeta. apply clamp_mono.
  set (m := if String.eqb _ "inquiry" then _ else _).
  assert (Hm : 0 <= m) by (subst m; repeat match goal with
                                     | |- context [if ?b then _ else _] => destruct b
                                     end; qlra).
  set (rm := (8 # 10) + _ * (4 # 10)).
  assert (Hrm : 0 <= rm) by (subst rm; qlra).
  assert (Hz : inject_Z (r1 - 1) <= inject_Z (r2 - 1)) by (rewrite <- Zle_Qle; lia).
  assert (Hb : PyQ.max (1 # 10) ((7 # 10) - inject_Z (r2 - 1) * (1 # 10))
               <= PyQ.max (1 # 10) ((7 # 10) - inject_Z (r1 - 1) * (1 # 10)))
    by (apply max_mono_r; qlra).
  apply Qmult_le_compat_r; [|exact Hrm].
  apply Qmult_le_compat_r; [exact Hb | exact Hm].
Qed.

(** Extra X12: when the rule's minimum wait is at least 14 days, a client
    who prefers frequent updates is never scheduled later than one who
    does not. *)
Theorem frequent_updates_not_later d r now :
  14 <= PyQ.get_or (min_wait_days r) 30 ->
  scheduled_date (schedule_next_round d (Some r) true now)
  <= scheduled_date (schedule_next_round d (Some r) false now).
Proof.
  intros Hmin. simpl. unfold calculate_optimal_schedule. cbv zeta.
  set (mn0 := PyQ.get_or (min_wait_days r) 30).
  set (mx0 := PyQ.get_or (max_wait_days r) 45).
  assert (Hp : exists mn mx,
             (if mem (PyQ.get_or (dispute_type d) "") ["collection"; "charge_off"]
              then (PyQ.max 20 (mn0 - 5), PyQ.max 30 (mx0 - 5)) else (mn0, mx0)) = (mn, mx)
             /\ 14 <= mn).
  { destruct (mem _ _).
    - eexists; eexists; split; [reflexivity|].
      pose proof (max_ge_l 20 (mn0 - 5)). qlra.
    - eexists; eexists; split; [reflexivity | exact Hmin]. }
  destruct Hp as (mn & mx & -> & Hmn).
  destruct (client_id d); [|apply Qle_refl]. cbv beta iota.
  rewrite <- Zle_Qle. apply Qfloor_resp_le.
  apply Qplus_le_r. rewrite <- Zle_Qle. apply py_int_mono.
  assert (PyQ.max 14 (mn - 10) <= mn) by (apply max_le; qlra).
  apply Qmult_le_compat_r; [qlra | discriminate].
Qed.

Definition sample_sched_dispute : Dispute :=
  mkDispute (Some 1%Z) (Some "late_payment") (Some (1 # 2)) (Some "client_7").

Lemma success_probability_bounds_antitone_witness :
  5 # 100 <= estimate_success_probability sample_sched_dispute 1 <= 95 # 100 /\
  estimate_success_probability sample_sched_dispute 3
  <= estimate_success_probability sample_sched_dispute 1.
Proof. apply success_probability_bounds_antitone; [cbn; qlra | lia]. Defined.

Lemma frequent_updates_not_later_witness :
  scheduled_date (schedule_next_round sample_sched_dispute
                    (Some (mkSchedulingRule None (Some 14) None None)) true 0)
  <= scheduled_date (schedule_next_round sample_sched_dispute
                       (Some (mkSchedulingRule None (Some 14) None None)) false 0).
Proof. apply frequent_updates_not_later. cbn. qlra. Defined.

End SchedulingFacts.

(** ** Payment retry *)
Module PaymentRetryFacts.
Open Scope Q_scope.
Import PaymentRetry PyQFacts ExtraFacts.

Lemma base_rate_antitone r1 r2 :
  (0 <= r1 <= r2)%Z -> base_rate (Z.min r2 3) <= base_rate (Z.min r1 3).
Proof.
  intros H.
  assert (H1 : Z.min r1 3 = 0%Z \/ Z.min r1 3 = 1%Z \/ Z.min r1 3 = 2%Z \/ Z.min r1 3 = 3%Z) by lia.
  assert (H2 : Z.min r2 3 = 0%Z \/ Z.min r2 3 = 1%Z \/ Z.min r2 3 = 2%Z \/ Z.min r2 3 = 3%Z) by lia.
  assert (H3 : (Z.min r1 3 <= Z.min r2 3)%Z) by lia.
  destruct H1 as [E1 | [E1 | [E1 | E1]]]; destruct H2 as [E2 | [E2 | [E2 | E2]]];
    rewrite E1, E2 in *; try lia; unfold base_rate, Qle; simpl; lia.
Qed.

Lemma base_rate_pos r : 0 <= base_rate r.
Proof. unfold base_rate. destruct r as [|[p|p|]|p]; try destruct p; unfold Qle; simpl; lia. Qed.

(** Extra X13: the estimated retry success rate lies in [[0.05, 0.95]]
    and never grows with the retry count (from 0 on) or with the amount. *)
Theorem retry_success_rate_antitone r1 r2 strat a1 a2 :
  (0 <= r1 <= r2)%Z -> a1 <= a2 ->
  5 # 100 <= estimate_success_rate r1 strat a1 <= 95 # 100 /\
  estimate_success_rate r2 strat a2 <= estimate_success_rate r1 strat a1.
Proof.
  intros Hr Ha. split; [apply clamp_bounds; qlra|].
  unfold estimate_success_rate. cbv zeta. apply clamp_mono.
  pose proof (base_rate_antitone r1 r2 Hr) as Hb.
  pose proof (base_rate_pos (Z.min r2 3)) as Hb0.
  set (sm := if String.eqb strat "exponential" then _ else _).
  assert (Hsm : 0 <= sm) by (subst sm; repeat match goal with
                                       | |- context [if ?b then _ else _] => destruct b
                                       end; qlra).
  assert (Hm : PyQ.max (1 # 2) ((12 # 10) - a2 / 1000)
               <= PyQ.max (1 # 2) ((12 # 10) - a1 / 1000)).
  { apply max_mono_r. unfold Qdiv.
    assert (a1 * / 1000 <= a2 * / 1000) by (apply Qmult_le_compat_r; [exact Ha | discriminate]).
    qlra. }
  pose proof (max_ge_l (1 # 2) ((12 # 10) - a2 / 1000)) as Hm0.
  apply Qmult_le_compat_nonneg; split.
  - apply Qmult_le_0_compat; assumption.
  - apply Qmult_le_compat_r; assumption.
  - qlra.
  - exact Hm.
Qed.

Lemma retry_success_rate_antitone_witness :
  5 # 100 <= estimate_success_rate 0 "linear" 100 <= 95 # 100 /\
  estimate_success_rate 2 "linear" 500 <= estimate_success_rate 0 "linear" 100.
Proof. apply retry_success_rate_antitone; [lia | qlra]. Defined.

End PaymentRetryFacts.

Module PaymentRetryDelay.
Open Scope Q_scope.
Import PaymentRetry PyQFacts.

(** Extra X14: from one retry to the next, the delay before the retry
    doubles under the exponential strategy, grows by the first delay under
    the linear one, and stays the same under any other. *)
Theorem retry_delay_growth config amount now rc :
  (0 <= rc)%Z ->
  let delay k :=
    next_retry_date (calculate_retry_strategy (mkPayment (Some k) amount) config now) - now in
  let strat := rs_strategy (calculate_retry_strategy (mkPayment (Some 0%Z) amount) config now) in
  if String.eqb strat "exponential" then delay (rc + 1)%Z == 2 * delay rc
  else if String.eqb strat "linear" then delay (rc + 1)%Z == delay rc + delay 0%Z
  else delay (rc + 1)%Z == delay rc.
Proof.
  intros Hrc. cbv zeta. unfold calculate_retry_strategy. cbv zeta.
  cbn [rs_strategy next_retry_date retry_count amount_cents PyQ.get_or].
  set (tier := get_amount_tier _ _).
  set (strat := PyQ.get_or (tier_strategy tier) _).
  set (i := PyQ.get_or (initial_delay_hours config) 24).
  set (m := PyQ.get_or (delay_multiplier tier) 1).
  destruct (String.eqb strat "exponential").
  - replace (2 ^ (rc + 1))%Z with (2 * 2 ^ rc)%Z by (rewrite Z.pow_add_r by lia; ring).
    rewrite inject_Z_mult. change (inject_Z 2) with 2. ring.
  - destruct (String.eqb strat "linear").
    + rewrite !inject_Z_plus. change (inject_Z 0) with 0. change (inject_Z 1) with 1. ring.
    + ring.
Qed.

(** Extra X15: with the default configuration, amounts in [[0, 100)]
    dollars get the low tier, [[100, 500)] the medium one, 500 and above
    the high one, and negative amounts fall back to the medium tier. *)
Theorem default_amount_tiers amount :
  get_amount_tier amount (amount_tiers default_config) =
  if PyQ.lt amount 0 then mkTier (Some 100) (Some 500) (Some "linear") (Some 1)
  else if PyQ.lt amount 100 then mkTier None (Some 100) (Some "fixed") (Some (1 # 2))
  else if PyQ.lt amount 500 then mkTier (Some 100) (Some 500) (Some "linear") (Some 1)
  else mkTier (Some 500) None (Some "exponential") (Some (3 # 2)).
Proof.
  unfold get_amount_tier, default_config, in_tier. cbn [amount_tiers find snd min_amount max_amount PyQ.get_or].
  pyq_cases; simpl; try reflexivity; exfalso; qlra.
Qed.

Lemma retry_delay_growth_witness :
  let delay k :=
    next_retry_date (calculate_retry_strategy (mkPayment (Some k) (Some 250)) (mkConfig None None []) 0)
    - 0 in
  let strat := rs_strategy (calculate_retry_strategy (mkPayment (Some 0%Z) (Some 250))
                              (mkConfig None None []) 0) in
  if String.eqb strat "exponential" then delay 3%Z == 2 * delay 2%Z
  else if String.eqb strat "linear" then delay 3%Z == delay 2%Z + delay 0%Z
  else delay 3%Z == delay 2%Z.
Proof. apply (retry_delay_growth (mkConfig None None []) (Some 250) 0 2). lia. Defined.

End PaymentRetryDelay.

(** ** Dunning sequence *)
Module DunningFacts.
Open Scope Q_scope.
Import Dunning PyQFacts.

(** Extra X17: when every step of the table waits a positive number of
    hours, two calls at the same instant send at most one email. *)
Theorem dunning_one_email_per_instant st steps amount now :
  Forall (fun step => exists h, delay_hours step = Some h /\ 0 < h) steps ->
  (List.length (sent_steps (fst (run st [(steps, amount, now); (steps, amount, now)]))) <= 1)%nat.
Proof.
  intros Hpos. simpl run.
  destruct (process_dunning_sequence st steps amount now) as [a1 s1] eqn:E1.
  destruct (process_dunning_sequence (Some s1) steps amount now) as [a2 s2] eqn:E2.
  simpl fst.
  destruct a1 as [| n tpl | t]; [destruct a2; simpl; lia | | destruct a2; simpl; lia].
  assert (Hs1 : last_step_at s1 = Some now).
  { unfold process_dunning_sequence in E1.
    destruct (get_next_sequence_step _ steps); [|discriminate].
    destruct (should_trigger_step _ _ _ _); inversion E1; reflexivity. }
  assert (Ha2 : forall n' tpl', a2 <> email_sent n' tpl').
  { intros n' tpl'. unfold process_dunning_sequence in E2.
    destruct (get_next_sequence_step _ steps) as [step|] eqn:Es;
      [|inversion E2; discriminate].
    unfold get_next_sequence_step in Es. apply find_some in Es. destruct Es as [Hin _].
    rewrite Forall_forall in Hpos. destruct (Hpos step Hin) as (h & Hh & Hh0).
    unfold should_trigger_step, check_time_condition in E2.
    rewrite Hh, Hs1 in E2.
    pose proof (le_spec (h * 3600) (now - now)) as Hle.
    destruct (PyQ.le (h * 3600) (now - now)); [qlra|].
    inversion E2. discriminate. }
  destruct a2 as [| n' tpl' | t']; simpl; try lia.
  exfalso. apply (Ha2 n' tpl'). reflexivity.
Qed.

Definition sample_steps : list Step :=
  [mkStep 1 "payment_failed" (Some 1) None; mkStep 2 "reminder" (Some 72) None].

Lemma dunning_one_email_per_instant_witness :
  (List.length (sent_steps (fst (run None [(sample_steps, 100%Q, 0%Q); (sample_steps, 100%Q, 0%Q)]))) <= 1)%nat.
Proof.
  apply dunning_one_email_per_instant.
  repeat constructor; eexists; (split; [reflexivity | qlra]).
Defined.

End DunningFacts.

Module ChurnAnalysisFacts.
Open Scope Q_scope.
Import PyStr ChurnAnalysis PyQFacts ExtraFacts.

Lemma nonempty_le_1 {A} (l : list A) : (nonempty l <= 1)%nat.
Proof. destruct l; simpl; lia. Qed.

Lemma data_completeness_bounds h :
  0 <= PyQ.of_nat (nonempty (disputes h) + nonempty (payments h)
                   + nonempty (communications h) + nonempty (documents h)) / 4 <= 1.
Proof.
  pose proof (nonempty_le_1 (disputes h)). pose proof (nonempty_le_1 (payments h)).
  pose proof (nonempty_le_1 (communications h)). pose proof (nonempty_le_1 (documents h)).
  match goal with |- context [PyQ.of_nat ?m] => set (n := m) end.
  assert (Hn : (n <= 4)%nat) by (unfold n; lia).
  pose proof (of_nat_nonneg n). apply of_nat_le in Hn.
  change (PyQ.of_nat 4) with 4 in Hn.
  split.
  - apply Qdiv_nonneg; qlra.
  - apply Qle_shift_div_r; qlra.
Qed.










Lemma filter_opt_none {A} (f : A -> option bool) l :
  Exists (fun x => f x = None) l -> filter_opt f l = None.
Proof.
  induction 1 as [x l Hx | x l _ IH]; simpl; [rewrite Hx; reflexivity|].
  destruct (f x); [rewrite IH|]; reflexivity.
Qed.


Lemma within_aware d now t : ts_aware t = true -> within d now t = None.
Proof. unfold within. intros ->. reflexivity. Qed.








Lemma churn_confidence_bounds_aux h fs :
  1 # 10 <= calculate_confidence h fs <= 19 # 20.
Proof.
  unfold calculate_confidence.
  pose proof (data_completeness_bounds h) as Hd.
  set (dc := PyQ.of_nat _ / 4) in *.
  assert (Hfc : forall b1 b2 b3 : bool,
             1 # 10 <= (if b1 then 1 # 10 else if b2 then 2 # 5 else if b3 then 7 # 10 else 9 # 10)
             <= 9 # 10) by (intros [|] [|] [|]; split; qlra).
  specialize (Hfc ((length fs =? 0)%nat) ((length fs <=? 2)%nat) ((length fs <=? 4)%nat)).
  set (fc := if (length fs =? 0)%nat then _ else _) in *.
  split.
  - apply max_ge_l.
  - apply max_le; [qlra |].
    eapply Qle_trans; [apply min_le_r |].
    apply Qle_shift_div_r; qlra.
Qed.

(** Extra X18: the confidence score of [_calculate_confidence] lies in
    [[0.1, 0.95]]. *)
Theorem churn_confidence_bounds h fs :
  1 # 10 <= calculate_confidence h fs <= 19 # 20.
Proof. exact (churn_confidence_bounds_aux h fs). Qed.



Lemma round3_bounds (a b : Z) q :
  inject_Z a <= q * 1000 -> q * 1000 <= inject_Z b ->
  Qmake a 1000 <= round3 q <= Qmake b 1000.
Proof. intros Ha Hb. unfold round3. exact (round_half_even_digits a b 1000 q Ha Hb). Qed.








Lemma determine_half : Churn.determine_risk_level (/ 2) = Churn.high.
Proof.
  unfold Churn.determine_risk_level.
  destruct (Rle_dec (7 / 10) (/ 2)); [lra |].
  destruct (Rle_dec (5 / 10) (/ 2)); [reflexivity | lra].
Qed.

(** Extra X21: without factors every client gets probability 0.5, level "high",
    no factors, the "high" recommendations when asked for, and a confidence
    score of at most 0.55. *)
Theorem predict_without_factors created_at h now incl :
  let pr := predict_client_churn created_at h now false incl in
  churn_probability pr = (/ 2)%R /\ prediction_level pr = Churn.high /\
  factors pr = [] /\
  recommended_actions pr = (if incl then level_recommendations "high" else []) /\
  confidence_score pr <= 550 # 1000.
Proof.
  unfold predict_client_churn.
  cbn [churn_probability prediction_level factors recommended_actions confidence_score map].
  change (Churn.calculate_churn_probability []) with (/ 2)%R.
  rewrite determine_half. split; [reflexivity | split; [reflexivity | split; [reflexivity | split]]].
  - destruct incl; reflexivity.
  - assert (Hr : (100 <= 550)%Z) by lia.
    eapply Qle_trans; [apply (round3_bounds 100 550) | qlra].
    + pose proof (churn_confidence_bounds_aux h []). unfold inject_Z. qlra.
    + unfold calculate_confidence. cbn [length Nat.eqb].
      pose proof (data_completeness_bounds h).
      set (dc := PyQ.of_nat _ / 4) in *.
      pose proof (min_le_r 1 ((dc + (1 # 10)) / 2)).
      assert ((dc + (1 # 10)) / 2 <= 11 # 20) by (apply Qle_shift_div_r; qlra).
      assert (PyQ.max (1 # 10) (PyQ.min 1 ((dc + (1 # 10)) / 2)) <= 11 # 20)
        by (apply max_le; qlra).
      unfold inject_Z. qlra.
Qed.

Lemma last_cons_shift {A} (l : list A) (x d : A) : last (x :: l) d = last l x.
Proof.
  revert x d. induction l as [|y l IH]; intros x d; [reflexivity |].
  change (last (x :: y :: l) d) with (last (y :: l) d). rewrite !IH. reflexivity.
Qed.

Lemma recommendations_fold fs acc l :
  fold_left (fun acc f => (app (fst acc) (factor_recommendations f), risk_level f))
            fs (acc, l)
  = (app acc (flat_map factor_recommendations fs), last (map risk_level fs) l).
Proof.
  revert acc l. induction fs as [|f fs IH]; intros acc l; cbn [fold_left fst map flat_map].
  - rewrite app_nil_r. reflexivity.
  - rewrite IH, app_assoc, last_cons_shift. reflexivity.
Qed.

(** Extra X22: when neither the client's level nor any factor yields a
    recommendation, the default list is chosen by the level of the last
    factor (the loop variable), not by the client's own level. *)
Theorem churn_recommendations_default rl fs :
  level_recommendations rl = [] ->
  Forall (fun f => factor_recommendations f = []) fs ->
  generate_recommendations rl fs =
  (if String.eqb (last (map risk_level fs) rl) "low" then low_default else other_default).
Proof.
  intros H1 H2. unfold generate_recommendations. rewrite recommendations_fold, H1.
  assert (E : flat_map factor_recommendations fs = []).
  { induction H2 as [|f fs Hf _ IH]; cbn [flat_map]; [reflexivity |]. rewrite Hf, IH. reflexivity. }
  rewrite E. reflexivity.
Qed.

(** Extra X24: [_generate_recommendations] never returns an empty list. *)
Theorem churn_recommendations_nonempty rl fs : generate_recommendations rl fs <> [].
Proof.
  unfold generate_recommendations. rewrite recommendations_fold.
  destruct (app (level_recommendations rl) (flat_map factor_recommendations fs)).
  - destruct (String.eqb _ "low"); discriminate.
  - discriminate.
Qed.

Lemma count_levels_partition ps :
  (count_level ps "high" + count_level ps "medium" + count_level ps "low"
   + count_level ps "critical"
   = length (filter (fun p => mem (pred_level p) ["critical"; "high"; "medium"; "low"]) ps))%nat.
Proof.
  induction ps as [|p ps IH]; [reflexivity |].
  unfold count_level in *. cbn [filter].
  assert (Hm : mem (pred_level p) ["critical"; "high"; "medium"; "low"]
               = (String.eqb (pred_level p) "critical" || (String.eqb (pred_level p) "high"
                  || (String.eqb (pred_level p) "medium" || (String.eqb (pred_level p) "low"
                  || false))))%bool) by reflexivity.
  rewrite Hm.
  destruct (String.eqb (pred_level p) "critical") eqn:E1,
           (String.eqb (pred_level p) "high") eqn:E2,
           (String.eqb (pred_level p) "medium") eqn:E3,
           (String.eqb (pred_level p) "low") eqn:E4;
  cbn [orb length]; rewrite ?String.eqb_eq in *;
  first [ congruence | lia ].
Qed.

Lemma fold_unit_bounds (xs : list Q) a :
  Forall (fun x => 0 <= x <= 1) xs ->
  a <= fold_left Qplus xs a <= a + PyQ.of_nat (List.length xs).
Proof.
  revert a. induction xs as [|x xs IH]; intros a Hall; cbn [fold_left List.length].
  - assert (H0 : PyQ.of_nat 0 == 0) by reflexivity. qlra.
  - inversion Hall as [|? ? Hx Hxs]; subst.
    destruct (IH (a + x) Hxs) as [H1 H2].
    assert (HS : PyQ.of_nat (S (List.length xs)) == PyQ.of_nat (List.length xs) + 1).
    { unfold PyQ.of_nat. rewrite Nat2Z.inj_succ, <- Z.add_1_r, inject_Z_plus. reflexivity. }
    qlra.
Qed.

(** Extra X23: the four level counts of [_calculate_summary_statistics] add up
    to the number of predictions whose level is one of the four, and the
    average probability stays in [[0, 1]] when each probability does. *)
Theorem summary_statistics_counts ps :
  let s := calculate_summary_statistics ps in
  (high_risk_count s + medium_risk_count s + low_risk_count s + critical_risk_count s
   = length (filter (fun p => mem (pred_level p) ["critical"; "high"; "medium"; "low"]) ps))%nat
  /\ (Forall (fun p => 0 <= PyQ.get_or (pred_churn_probability p) (1 # 2) <= 1) ps ->
      0 <= average_churn_probability s <= 1).
Proof.
  destruct ps as [|p ps'].
  - cbn. split; [reflexivity | intros _; qlra].
  - cbn [calculate_summary_statistics high_risk_count medium_risk_count low_risk_count
         critical_risk_count average_churn_probability].
    split; [apply count_levels_partition |]. intros Hall.
    set (probs := map _ (p :: ps')).
    assert (Hp : Forall (fun x => 0 <= x <= 1) probs) by (apply (proj2 (Forall_map _ _ _)); exact Hall).
    destruct (fold_unit_bounds probs 0 Hp) as [H1 H2].
    assert (Hn : 0 < PyQ.of_nat (length probs)).
    { unfold probs. rewrite length_map. cbn [length]. unfold PyQ.of_nat.
      change 0 with (inject_Z 0). rewrite <- Zlt_Qlt. lia. }
    assert (0 <= fold_left Qplus probs 0 / PyQ.of_nat (length probs) <= 1).
    { split; [apply Qdiv_nonneg; qlra | apply Qle_shift_div_r; qlra]. }
    destruct (round3_bounds 0 1000 (fold_left Qplus probs 0 / PyQ.of_nat (length probs)))
      as [R1 R2]; [unfold inject_Z; qlra | unfold inject_Z; qlra |].
    split; [eapply Qle_trans; [| exact R1]; qlra | eapply Qle_trans; [exact R2 | qlra]].
Qed.

Definition medium_engagement : Factor :=
  mkFactor "communication_engagement" 2 "medium" (3 # 5).

Lemma churn_recommendations_default_witness :
  generate_recommendations "low" [medium_engagement] = other_default.
Proof.
  rewrite (churn_recommendations_default "low" [medium_engagement]).
  - reflexivity.
  - reflexivity.
  - constructor; [reflexivity | constructor].
Defined.

Definition sample_predictions : list Prediction :=
  [mkPrediction (Some "high") (Some (7 # 10)); mkPrediction (Some "medium") (Some (2 # 5));
   mkPrediction (Some "unknown") None].

Lemma summary_statistics_counts_witness :
  (high_risk_count (calculate_summary_statistics sample_predictions)
   + medium_risk_count (calculate_summary_statistics sample_predictions)
   + low_risk_count (calculate_summary_statistics sample_predictions)
   + critical_risk_count (calculate_summary_statistics sample_predictions)
   = length (filter (fun p => mem (pred_level p) ["critical"; "high"; "medium"; "low"])
                    sample_predictions))%nat
  /\ 0 <= average_churn_probability (calculate_summary_statistics sample_predictions) <= 1.
Proof.
  destruct (summary_statistics_counts sample_predictions) as [H1 H2].
  split; [exact H1|]. apply H2.
  repeat constructor; cbn [PyQ.get_or pred_churn_probability]; qlra.
Defined.

(** Extra X25: a client whose creation date, or one of whose disputes or
    documents, carries an offset-aware timestamp makes the analysis raise
    [TypeError] against the naive [utcnow()], and the prediction with
    factors is then the error fallback: probability 0.5, level "medium",
    no factors, the manual-review recommendation and confidence 0.1. *)
Theorem aware_timestamp_error created_at h now incl :
  (exists t, created_at = Some t /\ ts_aware t = true) \/
  Exists (fun t => ts_aware t = true) (app (map dispute_created_at (disputes h)) (documents h)) ->
  analyze_risk_factors created_at h now = None /\
  predict_client_churn created_at h now true incl = error_prediction.
Proof.
  intros H.
  assert (Hnone : analyze_risk_factors created_at h now = None).
  { unfold analyze_risk_factors.
    destruct H as [(t & -> & Ht) | Hex].
    - cbn [analyze_tenure_risk]. rewrite Ht.
      destruct (analyze_engagement_risk h now), (analyze_payment_risk h now),
               (analyze_utilization_risk h now), (analyze_support_risk h now); reflexivity.
    - assert (Hu : analyze_utilization_risk h now = None).
      { unfold analyze_utilization_risk. rewrite filter_opt_none; [reflexivity|].
        eapply Exists_impl; [| exact Hex]. intros t Ht. apply within_aware, Ht. }
      rewrite Hu.
      destruct (analyze_engagement_risk h now), (analyze_payment_risk h now),
               (analyze_tenure_risk created_at now), (analyze_support_risk h now); reflexivity. }
  split; [exact Hnone|]. unfold predict_client_churn. rewrite Hnone. reflexivity.
Qed.

Definition sample_history : History :=
  mkHistory [mkDisputeRow (Some "success") (mkTimestamp 10 false)] [] []
            [mkTimestamp 20 false].



Lemma aware_timestamp_error_witness :
  predict_client_churn (Some (mkTimestamp 0 true)) sample_history 40 true true
  = error_prediction.
Proof.
  destruct (aware_timestamp_error (Some (mkTimestamp 0 true)) sample_history 40 true)
    as [_ H].
  - left. exists (mkTimestamp 0 true). split; reflexivity.
  - exact H.
Defined.

End ChurnAnalysisFacts.
